(** * pyFlowStat / TriSurface.py : a shallow embedding

    The development follows [src/pyFlowStat/TriSurface.py]: the table parser
    [parseFoamFile], the geometry helpers of class [TriSurface]
    ([affineVec], [affineMat], [genPlaneData], [genTransData], [isColinear])
    and the two construction methods [readFromFoamFile] and
    [constructFromArray], together with the stub [readFromVTK].

    Modelling choices.
    - Numbers.  The code computes in IEEE double precision.  The object,
      its methods and the parser are written here over exact rationals
      ([Qc], Leibniz equality): these parts copy, index and compare shapes,
      and what is stated of them is either independent of the value of a
      sum or a product, or is stated at inputs (small integers) on which
      every operation is exact in double precision as well.  The geometry
      helpers are written a second time over any arithmetic (module
      [generic], no law assumed of the operations), with the exact
      rationals ([exact]) and the doubles ([float64], primitive floats) as
      instances: what is stated of the results of genPlaneData and
      genTransData for all inputs is proved for every arithmetic, and the
      examples that depend on rounding are computed in doubles.
    - A one-dimensional [numpy] array is a list of numbers; a
      two-dimensional array is the list of its rows.
    - A Python exception is a value [Raise e]; a method that mutates [self]
      is a function from the object to the object after the call paired with
      the outcome, so that what was assigned before a [raise] stays visible.
    - The [numpy] functions are not part of the repository: module [np]
      gives the part of their documented behaviour that the code relies on.
    - Text: the content of a file is a string of ASCII characters, read as
      Python 3 reads a file opened in text mode. *)

From Stdlib Require Import Floats.PrimFloat.
From Stdlib Require Import String Ascii QArith Qcanon ZArith Lia Bool Field List.
From ExtLib Require Import Structures.Monad.
Import ListNotations.
Import MonadNotation.
Local Open Scope monad_scope.
Local Open Scope Qc_scope.

(* ===================================================================== *)
(** * Outcomes of a Python call *)

Inductive exn : Type :=
| IOError        (* open() on a missing file *)
| IndexError     (* subscript out of range, too many indices *)
| ValueError     (* shapes that do not fit, float() of a bad literal,
                    truth value of an array *)
| TypeError      (* subscript of None *)
| LinAlgError    (* numpy.linalg: singular or non-square matrix *)
| SingularBasisError.  (* the class the specification names for a singular
                          view basis; the source does not define it and
                          nothing below raises it *)

Inductive result (A : Type) : Type :=
| Ok (a : A)
| Raise (e : exn).
Arguments Ok {A} a.
Arguments Raise {A} e.

#[global] Instance Monad_result : Monad result :=
  {| ret := fun _ a => Ok a;
     bind := fun _ _ c k => match c with Ok a => k a | Raise e => Raise e end |}.

Definition raises {A} (r : result A) : Prop := exists e, r = Raise e.

(* ===================================================================== *)
(** * Arrays *)

(** Arrays of exact rationals. *)
Definition vector := list Qc.
Definition table := list vector.

(** [a[i]] and [a[i,:]] with a non-negative index. *)
Definition item {A} (a : list A) (i : nat) : result A :=
  match nth_error a i with
  | Some x => Ok x
  | None => Raise IndexError
  end.

(** [a[lo:hi]] *)
Definition slice {A} (lo hi : nat) (a : list A) : list A :=
  firstn (hi - lo) (skipn lo a).

(** [a[i] = x] for [i] in range (the code only stores at such indices). *)
Fixpoint set_item {A} (a : list A) (i : nat) (x : A) : list A :=
  match a, i with
  | [], _ => []
  | _ :: t, O => x :: t
  | h :: t, S j => h :: set_item t j x
  end.

(** [a[lo:hi] = v]: the value must have the length of the slice. *)
Definition set_slice {A} (lo hi : nat) (a v : list A) : result (list A) :=
  if Nat.eqb (length v) (length (slice lo hi a))
  then Ok (firstn lo a ++ v ++ skipn (lo + length v) a)
  else Raise ValueError.

(** [m[:,j] = v] *)
Fixpoint set_col {A} (m : list (list A)) (j : nat) (v : list A)
  : list (list A) :=
  match m, v with
  | r :: m', x :: v' => set_item r j x :: set_col m' j v'
  | _, _ => m
  end.

Definition column (m : table) (j : nat) : vector :=
  map (fun r => nth j r 0) m.

Fixpoint map2 {A B C} (f : A -> B -> C) (u : list A) (v : list B) : list C :=
  match u, v with
  | x :: u', y :: v' => f x y :: map2 f u' v'
  | _, _ => []
  end.

Definition rectangular {A} (w : nat) (m : list (list A)) : bool :=
  forallb (fun r => Nat.eqb (length r) w) m.

Module np.

Definition zeros (n : nat) : vector := repeat 0 n.
Definition zeros2 (r c : nat) : table := repeat (zeros c) r.

Definition identity (n : nat) : table :=
  map (fun i => set_item (zeros n) i 1) (seq 0 n).

(** Element-wise operation on two one-dimensional arrays: equal lengths,
    or one operand of length one which is then broadcast. *)
Definition elementwise (f : Qc -> Qc -> Qc) (u v : vector) : result vector :=
  if Nat.eqb (length u) (length v) then Ok (map2 f u v)
  else match u, v with
       | [a], _ => Ok (map (f a) v)
       | _, [b] => Ok (map (fun x => f x b) u)
       | _, _ => Raise ValueError
       end.

Definition add := elementwise Qcplus.
Definition sub := elementwise Qcminus.

(** Element-wise sum of two two-dimensional arrays, with numpy's
    broadcasting: the numbers of rows are equal or one of them is 1, and
    so are the lengths of the rows. *)
Fixpoint add_rows (a b : table) : result table :=
  match a, b with
  | ra :: a', rb :: b' =>
      r <- elementwise Qcplus ra rb ;; t <- add_rows a' b' ;; ret (r :: t)
  | _, _ => Ok []
  end.

Fixpoint add_row_to (ra : vector) (b : table) : result table :=
  match b with
  | [] => Ok []
  | rb :: b' =>
      r <- elementwise Qcplus ra rb ;; t <- add_row_to ra b' ;; ret (r :: t)
  end.

Fixpoint add_to_row (a : table) (rb : vector) : result table :=
  match a with
  | [] => Ok []
  | ra :: a' =>
      r <- elementwise Qcplus ra rb ;; t <- add_to_row a' rb ;; ret (r :: t)
  end.

Definition add2 (a b : table) : result table :=
  if Nat.eqb (length a) (length b) then add_rows a b
  else match a, b with
       | [ra], _ => add_row_to ra b
       | _, [rb] => add_to_row a rb
       | _, _ => Raise ValueError
       end.

(** [np.cross] of two 3-vectors.  For other lengths numpy raises
    ValueError, except that 2-vectors are taken in the plane z = 0; both
    callers then raise ValueError on the next shape they meet
    ([np.dot] of 4 against 3 entries, a 2-vector stored in a column of
    3), so the outcome of the callers is the one given here. *)
Definition cross (u v : vector) : result vector :=
  match u, v with
  | [u0; u1; u2], [v0; v1; v2] =>
      Ok [u1 * v2 - u2 * v1; u2 * v0 - u0 * v2; u0 * v1 - u1 * v0]
  | _, _ => Raise ValueError
  end.

Definition sum (u : vector) : Qc := fold_right Qcplus 0 u.

(** [np.dot] of two one-dimensional arrays. *)
Definition dot (u v : vector) : result Qc :=
  if Nat.eqb (length u) (length v) then Ok (sum (map2 Qcmult u v))
  else Raise ValueError.

(** [np.dot] of a two-dimensional with a one-dimensional array. *)
Fixpoint matvec (m : table) (v : vector) : result vector :=
  match m with
  | [] => Ok []
  | r :: m' => x <- dot r v ;; t <- matvec m' v ;; ret (x :: t)
  end.

(** [np.dot] of two two-dimensional arrays. *)
Definition matmul (a b : table) : result table :=
  if rectangular (length b) a then
    match b with
    | [] => Ok (map (fun _ => []) a)
    | r :: _ =>
        if rectangular (length r) b
        then Ok (map (fun ra => map (fun j => sum (map2 Qcmult ra (column b j)))
                                    (seq 0 (length r))) a)
        else Raise ValueError
    end
  else Raise ValueError.

(** [v.reshape((4,1))] *)
Definition reshape_4_1 (v : vector) : result table :=
  if Nat.eqb (length v) 4 then Ok (map (fun x => [x]) v) else Raise ValueError.

(** [a == b] on arrays: the array of the element-wise comparisons. *)
Definition equal (u v : vector) : result (list bool) :=
  if Nat.eqb (length u) (length v) then Ok (map2 Qc_eq_bool u v)
  else match u, v with
       | [a], _ => Ok (map (Qc_eq_bool a) v)
       | _, [b] => Ok (map (fun x => Qc_eq_bool x b) u)
       | _, _ => Raise ValueError
       end.

(** [bool(a)], what [if a:] evaluates: defined for one element only
    (the empty array counts as false). *)
Definition truth (a : list bool) : result bool :=
  match a with
  | [] => Ok false
  | [b] => Ok b
  | _ => Raise ValueError
  end.

Module linalg.

Fixpoint remove_nth {A} (j : nat) (l : list A) : list A :=
  match l, j with
  | [], _ => []
  | _ :: t, O => t
  | h :: t, S k => h :: remove_nth k t
  end.

(** Laplace expansion along the first row; [r] is what is left of that
    row from column [j] on, [rest] the other rows. *)
Fixpoint laplace (det' : table -> Qc) (sign : Qc) (j : nat)
         (r : vector) (rest : table) : Qc :=
  match r with
  | [] => 0
  | x :: r' =>
      sign * x * det' (map (remove_nth j) rest)
      + laplace det' (- sign) (S j) r' rest
  end.

Fixpoint det_n (n : nat) (m : table) : Qc :=
  match n with
  | O => 1
  | S n' =>
      match m with
      | [] => 0
      | r :: rest => laplace (det_n n') 1 0 r rest
      end
  end.

Definition det (m : table) : Qc := det_n (length m) m.

Definition minor (m : table) (i j : nat) : table :=
  map (remove_nth j) (remove_nth i m).

Definition sign (k : nat) : Qc := if Nat.even k then 1 else - (1).

(** Entry (i,j) of the inverse: cofactor (j,i) over the determinant. *)
Definition inv_entry (m : table) (d : Qc) (i j : nat) : Qc :=
  sign (i + j) * det (minor m j i) / d.

(** [np.linalg.inv] in exact arithmetic: LinAlgError for a matrix that is
    not square or is singular (the elimination that numpy runs meets a
    zero pivot exactly when the determinant is zero), its inverse
    otherwise. *)
Definition inv (m : table) : result table :=
  let n := length m in
  if rectangular n m then
    let d := det m in
    if Qc_eq_bool d 0 then Raise LinAlgError
    else Ok (map (fun i => map (inv_entry m d i) (seq 0 n)) (seq 0 n))
  else Raise LinAlgError.

End linalg.

End np.

(* ===================================================================== *)
(** * Geometry helpers of class TriSurface *)

(** [affineVec(self, vec)] *)
Definition affineVec (vec : vector) : result vector :=
  let affineVec := np.zeros (length vec + 1) in
  let affineVec := set_item affineVec (length affineVec - 1) 1 in
  s <- np.add (slice 0 (length vec) affineVec) vec ;;
  set_slice 0 (length vec) affineVec s.

(** [affineMat(self, mat, trans)] *)
Definition affineMat (mat : table) (trans : vector) : result table :=
  let nbl := length mat in
  let nbr := length mat in
  let affineMat := np.zeros2 (nbl + 1) (nbr + 1) in
  (* affineMat[0:nbl,0:nbl] = affineMat[0:nbl,0:nbl] + mat *)
  blk <- np.add2 (map (slice 0 nbl) (slice 0 nbl affineMat)) mat ;;
  affineMat <-
    (if Nat.eqb (length blk) nbl && rectangular nbl blk
     then Ok (map2 (fun r b => b ++ skipn nbl r) (slice 0 nbl affineMat) blk
              ++ skipn nbl affineMat)%list
     else Raise ValueError) ;;
  (* affineMat[0:nbr,-1] = affineMat[0:nbr,-1] + trans *)
  col <- np.add (slice 0 nbr (column affineMat nbr)) trans ;;
  affineMat <- (if Nat.eqb (length col) nbr then Ok (set_col affineMat nbr col)
                else Raise ValueError) ;;
  (* affineMat[-1,-1] = 1 *)
  last_row <- item affineMat nbl ;;
  ret (set_item affineMat nbl (set_item last_row nbr 1)).

(** [genPlaneData(self, points)] *)
Definition genPlaneData (points : table) : result vector :=
  p1 <- item points 1 ;;
  p0 <- item points 0 ;;
  v1 <- np.sub p1 p0 ;;
  p2 <- item points 2 ;;
  v2 <- np.sub p2 p0 ;;
  plNorm <- np.cross v1 v2 ;;
  let plDef := np.zeros 4 in
  s <- np.add (slice 0 3 plDef) plNorm ;;
  plDef <- set_slice 0 3 plDef s ;;
  afpt <- affineVec p0 ;;
  c <- np.dot plDef afpt ;;
  ret (set_item plDef 3 (- c)).

(** [genTransData(self, points, viewAnchor, xViewBasis, yViewBasis)];
    storing a vector in a column needs a vector of the column's length. *)
Definition store_col (m : table) (j : nat) (v : vector) : result table :=
  if Nat.eqb (length v) (length m) then Ok (set_col m j v)
  else match v with
       | [x] => Ok (set_col m j (repeat x (length m)))
       | _ => Raise ValueError
       end.

Definition genTransData (points : table) (viewAnchor xViewBasis yViewBasis : vector)
  : result (table * table * table) :=
  let viewBasis := np.zeros2 3 3 in
  zViewBasis <- np.cross xViewBasis yViewBasis ;;
  viewBasis <- store_col viewBasis 0 xViewBasis ;;
  viewBasis <- store_col viewBasis 1 yViewBasis ;;
  viewBasis <- store_col viewBasis 2 zViewBasis ;;
  translation <- np.sub viewAnchor (np.zeros 3) ;;
  invT <- affineMat viewBasis translation ;;
  T <- np.linalg.inv invT ;;
  ret (T, invT, viewBasis).

(** [isColinear(self, vec1, vec2)] *)
Definition isColinear (vec1 vec2 : vector) : result bool :=
  c <- np.cross vec1 vec2 ;;
  cmp <- np.equal c (np.zeros (length vec1)) ;;
  b <- np.truth cmp ;;
  if (b : bool) then Ok true else Ok false.

(* ===================================================================== *)
(** * The table parser *)

Module re.

(** The regular expressions the parser needs: a sequence of character
    classes, each under [?], [*] or [+].  Matching is Python's: greedy,
    backtracking, first success in that order. *)
Inductive quant : Type := Opt | Star | Plus.
Definition atom : Type := (ascii -> bool) * quant.

(** [\d] on ASCII text: the digits 0 to 9. *)
Definition is_digit (c : ascii) : bool :=
  let n := nat_of_ascii c in (48 <=? n)%nat && (n <=? 57)%nat.
Definition is_sign (c : ascii) : bool :=
  Ascii.eqb c "-" || Ascii.eqb c "+".
Definition is_char (d c : ascii) : bool := Ascii.eqb c d.

(** [c*] followed by [k], longest run first. *)
Fixpoint star (c : ascii -> bool) (k : list ascii -> option (list ascii))
         (s : list ascii) : option (list ascii) :=
  match s with
  | x :: s' =>
      if c x then
        match star c k s' with
        | Some r => Some r
        | None => k s
        end
      else k s
  | [] => k s
  end.

(** What is left of [s] after the first way of matching [p] at its head. *)
Fixpoint match_here (p : list atom) (s : list ascii) : option (list ascii) :=
  match p with
  | [] => Some s
  | (c, q) :: p' =>
      let k := match_here p' in
      match q with
      | Star => star c k s
      | Plus =>
          match s with
          | x :: s' => if c x then star c k s' else None
          | [] => None
          end
      | Opt =>
          match s with
          | x :: s' =>
              if c x then
                match k s' with
                | Some r => Some r
                | None => k s
                end
              else k s
          | [] => k s
          end
      end
  end.

(** [re.findall(p, s)]: the non-overlapping matches, left to right.
    [skip] counts the characters of [s] that the last match still covers. *)
Fixpoint findall_from (p : list atom) (skip : nat) (s : list ascii)
  : list (list ascii) :=
  match s with
  | [] => []
  | _ :: s' =>
      match skip with
      | S k => findall_from p k s'
      | O =>
          match match_here p s with
          | Some rest =>
              let n := (length s - length rest)%nat in
              firstn n s :: findall_from p (n - 1) s'
          | None => findall_from p 0 s'
          end
      end
  end.

Definition findall (p : list atom) (s : string) : list string :=
  map string_of_list_ascii (findall_from p 0 (list_ascii_of_string s)).

End re.

(** ['[-+]?\d*\.?\d+e*[-+]?\d*'] *)
Definition number_re : list re.atom :=
  [ (re.is_sign, re.Opt); (re.is_digit, re.Star); (re.is_char ".", re.Opt);
    (re.is_digit, re.Plus); (re.is_char "e", re.Star); (re.is_sign, re.Opt);
    (re.is_digit, re.Star) ].

(** [float(nb)] on the alphabet of the tokens (signs, digits, point, e):
    [sign] digits [. digits] [e [sign] digits] with a digit in the mantissa
    and one in the exponent when there is an [e]; ValueError otherwise.
    The value is the exact decimal, where Python gives the nearest double
    (infinity or zero beyond the range of the doubles): whether [float]
    returns or raises is the same. *)
Module pyfloat.

Fixpoint span (c : ascii -> bool) (s : list ascii) : list ascii * list ascii :=
  match s with
  | x :: s' => if c x then let (a, b) := span c s' in (x :: a, b) else ([], s)
  | [] => ([], [])
  end.

Definition digit_val (c : ascii) : Z := Z.of_nat (nat_of_ascii c) - 48.

Definition digits_val (ds : list ascii) : Z :=
  fold_left (fun acc c => 10 * acc + digit_val c)%Z ds 0%Z.

Definition sign_of (s : list ascii) : Z * list ascii :=
  match s with
  | x :: s' =>
      if Ascii.eqb x "-" then ((-1)%Z, s')
      else if Ascii.eqb x "+" then (1%Z, s')
      else (1%Z, s)
  | [] => (1%Z, [])
  end.

Definition pow10 (e : Z) : Qc := Q2Qc (Qpower (10 # 1) e).

Definition exponent (s : list ascii) : option Z :=
  match s with
  | [] => Some 0%Z
  | x :: s' =>
      if Ascii.eqb x "e" || Ascii.eqb x "E" then
        let (sg, s1) := sign_of s' in
        let (ds, s2) := span re.is_digit s1 in
        match ds, s2 with
        | _ :: _, [] => Some (sg * digits_val ds)%Z
        | _, _ => None
        end
      else None
  end.

Definition parse (s : list ascii) : option Qc :=
  let (sg, s1) := sign_of s in
  let (ip, s2) := span re.is_digit s1 in
  let (fp, s3) :=
    match s2 with
    | x :: s2' => if Ascii.eqb x "." then span re.is_digit s2' else ([], s2)
    | [] => ([], [])
    end in
  match ip ++ fp with
  | [] => None
  | _ :: _ =>
      match exponent s3 with
      | Some e =>
          Some (Q2Qc (inject_Z (sg * digits_val (ip ++ fp)))
                * pow10 (e - Z.of_nat (length fp)))
      | None => None
      end
  end.

End pyfloat.

Definition float (nb : string) : result Qc :=
  match pyfloat.parse (list_ascii_of_string nb) with
  | Some x => Ok x
  | None => Raise ValueError
  end.

(** [str.startswith] *)
Definition startswith (pre s : string) : bool := String.prefix pre s.

(** The lines a text file opened with [open(foamFile, 'r')] iterates over
    (Python 3, universal newlines): a line ends at a line feed, at a
    carriage return or at a carriage return followed by a line feed, and
    is given with the line feed as its end in each case.  [after_cr] tells
    that the last character read was a carriage return. *)
Fixpoint lines_from (after_cr : bool) (cur : list ascii) (s : list ascii)
  : list string :=
  match s with
  | [] => match cur with [] => [] | _ => [string_of_list_ascii (rev cur)] end
  | c :: s' =>
      if Ascii.eqb c "010" then
        if after_cr then lines_from false cur s'
        else string_of_list_ascii (rev ("010"%char :: cur))
             :: lines_from false [] s'
      else if Ascii.eqb c "013" then
        string_of_list_ascii (rev ("010"%char :: cur)) :: lines_from true [] s'
      else lines_from false (c :: cur) s'
  end.
Definition lines (text : string) : list string :=
  lines_from false [] (list_ascii_of_string text).

(** [np.array(output)] of a list of rows: rows of one length make a
    two-dimensional array ([[]] stands for the empty array, of shape (0,),
    on which a two-index subscript is an IndexError as it is on [[]] here);
    rows of different lengths are refused (ValueError: inhomogeneous shape;
    numpy before 1.24 built an array of row objects instead, on which the
    two-index subscripts of the callers fail). *)
Definition np_array (output : list (list Qc)) : result table :=
  match output with
  | [] => Ok []
  | r :: _ => if rectangular (length r) output then Ok output else Raise ValueError
  end.

(** [matchfloat = list(); for nb in match: matchfloat.append(float(nb))] *)
Fixpoint floats (toks : list string) : result (list Qc) :=
  match toks with
  | [] => Ok []
  | nb :: toks' => x <- float nb ;; t <- floats toks' ;; ret (x :: t)
  end.

(** The body of [for line in istream] on the pair (output, catchFirstNb). *)
Definition parse_line (st : list (list Qc) * bool) (line : string)
  : result (list (list Qc) * bool) :=
  let (output, catchFirstNb) := st in
  let match_ := re.findall number_re line in
  let _ := if startswith "//" line then tt else tt in      (* pass *)
  if negb catchFirstNb && Nat.eqb (length match_) 1 then
    Ok (output, true)
  else if catchFirstNb && Nat.ltb 0 (length match_) then
    matchfloat <- floats match_ ;;
    ret (output ++ [matchfloat], catchFirstNb)%list
  else
    Ok (output, catchFirstNb).

Fixpoint parse_lines (st : list (list Qc) * bool) (ls : list string)
  : result (list (list Qc) * bool) :=
  match ls with
  | [] => Ok st
  | line :: ls' => st' <- parse_line st line ;; parse_lines st' ls'
  end.

(** A file system: the text of the file at a path, if there is one.  The
    text is taken to be ASCII: [is_ascii] below says so in the statements
    that range over all texts. *)
Definition filesystem := string -> option string.

(** [parseFoamFile(foamFile)] *)
Definition parseFoamFile (fs : filesystem) (foamFile : string) : result table :=
  match fs foamFile with
  | None => Raise IOError
  | Some text =>
      st <- parse_lines ([], false) (lines text) ;;
      np_array (fst st)
  end.

(* ===================================================================== *)
(** * The object *)

(** The members of a [TriSurface]; [None] is Python's [None]. *)
Module self.

Record obj : Type := make {
  storeMesh : bool;
  varsFile : string;
  pointsFile : string;
  facesFile : string;
  vars : option table;
  varRank : nat;
  points : option table;
  xys : option table;
  faces : option table;
  plDef : option vector;
  viewAnchor : option vector;
  viewBasis : option table;
  affMat : option table;
  invAffMat : option table }.

Definition set_varsFile (x : string) (s : obj) : obj :=
  make (storeMesh s) x (pointsFile s) (facesFile s) (vars s) (varRank s) (points s) (xys s) (faces s) (plDef s) (viewAnchor s) (viewBasis s) (affMat s) (invAffMat s).
Definition set_pointsFile (x : string) (s : obj) : obj :=
  make (storeMesh s) (varsFile s) x (facesFile s) (vars s) (varRank s) (points s) (xys s) (faces s) (plDef s) (viewAnchor s) (viewBasis s) (affMat s) (invAffMat s).
Definition set_facesFile (x : string) (s : obj) : obj :=
  make (storeMesh s) (varsFile s) (pointsFile s) x (vars s) (varRank s) (points s) (xys s) (faces s) (plDef s) (viewAnchor s) (viewBasis s) (affMat s) (invAffMat s).
Definition set_vars (x : option table) (s : obj) : obj :=
  make (storeMesh s) (varsFile s) (pointsFile s) (facesFile s) x (varRank s) (points s) (xys s) (faces s) (plDef s) (viewAnchor s) (viewBasis s) (affMat s) (invAffMat s).
Definition set_varRank (x : nat) (s : obj) : obj :=
  make (storeMesh s) (varsFile s) (pointsFile s) (facesFile s) (vars s) x (points s) (xys s) (faces s) (plDef s) (viewAnchor s) (viewBasis s) (affMat s) (invAffMat s).
Definition set_points (x : option table) (s : obj) : obj :=
  make (storeMesh s) (varsFile s) (pointsFile s) (facesFile s) (vars s) (varRank s) x (xys s) (faces s) (plDef s) (viewAnchor s) (viewBasis s) (affMat s) (invAffMat s).
Definition set_xys (x : option table) (s : obj) : obj :=
  make (storeMesh s) (varsFile s) (pointsFile s) (facesFile s) (vars s) (varRank s) (points s) x (faces s) (plDef s) (viewAnchor s) (viewBasis s) (affMat s) (invAffMat s).
Definition set_faces (x : option table) (s : obj) : obj :=
  make (storeMesh s) (varsFile s) (pointsFile s) (facesFile s) (vars s) (varRank s) (points s) (xys s) x (plDef s) (viewAnchor s) (viewBasis s) (affMat s) (invAffMat s).
Definition set_plDef (x : option vector) (s : obj) : obj :=
  make (storeMesh s) (varsFile s) (pointsFile s) (facesFile s) (vars s) (varRank s) (points s) (xys s) (faces s) x (viewAnchor s) (viewBasis s) (affMat s) (invAffMat s).
Definition set_viewAnchor (x : option vector) (s : obj) : obj :=
  make (storeMesh s) (varsFile s) (pointsFile s) (facesFile s) (vars s) (varRank s) (points s) (xys s) (faces s) (plDef s) x (viewBasis s) (affMat s) (invAffMat s).
Definition set_viewBasis (x : option table) (s : obj) : obj :=
  make (storeMesh s) (varsFile s) (pointsFile s) (facesFile s) (vars s) (varRank s) (points s) (xys s) (faces s) (plDef s) (viewAnchor s) x (affMat s) (invAffMat s).
Definition set_affMat (x : option table) (s : obj) : obj :=
  make (storeMesh s) (varsFile s) (pointsFile s) (facesFile s) (vars s) (varRank s) (points s) (xys s) (faces s) (plDef s) (viewAnchor s) (viewBasis s) x (invAffMat s).
Definition set_invAffMat (x : option table) (s : obj) : obj :=
  make (storeMesh s) (varsFile s) (pointsFile s) (facesFile s) (vars s) (varRank s) (points s) (xys s) (faces s) (plDef s) (viewAnchor s) (viewBasis s) (affMat s) x.

End self.

Definition TriSurface : Type := self.obj.

(** [__init__(self, storeMesh=True)] *)
Definition init (storeMesh : bool) : TriSurface :=
  self.make storeMesh EmptyString EmptyString EmptyString
            None 0%nat None None None None None None None None.

(* ===================================================================== *)
(** * Methods: the object after the call, what was printed, the outcome *)

Record outcome (A : Type) : Type := mkOutcome {
  self_after : TriSurface;
  printed : list string;
  value : result A }.
Arguments mkOutcome {A}.
Arguments self_after {A}.
Arguments printed {A}.
Arguments value {A}.

Definition method (A : Type) : Type := TriSurface -> outcome A.

#[global] Instance Monad_method : Monad method :=
  {| ret := fun _ a s => mkOutcome s [] (Ok a);
     bind := fun _ _ c k s =>
       match c s with
       | mkOutcome s1 p1 (Ok a) =>
           match k a s1 with
           | mkOutcome s2 p2 r => mkOutcome s2 (p1 ++ p2)%list r
           end
       | mkOutcome s1 p1 (Raise e) => mkOutcome s1 p1 (Raise e)
       end |}.

(** A call that does not touch the object. *)
Definition lift {A} (r : result A) : method A := fun s => mkOutcome s [] r.

(** [self.x = v] *)
Definition assign (set : TriSurface -> TriSurface) : method unit :=
  fun s => mkOutcome (set s) [] (Ok tt).

(** [self.x] where an array is expected. *)
Definition getattr {A} (get : TriSurface -> option A) : method A :=
  fun s => mkOutcome s [] (match get s with Some a => Ok a | None => Raise TypeError end).

Definition getflag (get : TriSurface -> bool) : method bool :=
  fun s => mkOutcome s [] (Ok (get s)).

Definition print (msg : string) : method unit :=
  fun s => mkOutcome s [msg] (Ok tt).

(** [for i in range(n): body] *)
Fixpoint for_in (l : list nat) (body : nat -> method unit) : method unit :=
  match l with
  | [] => ret tt
  | i :: l' => body i ;; for_in l' body
  end.
Definition for_range (n : nat) := for_in (seq 0 n).

(** [np.copy] *)
Definition np_copy (a : table) : table := a.

(** The body of the loop that fills [self.xys], for the index [i]; the
    first [ptInB] is computed and overwritten, as in the source. *)
Definition project_point (i : nat) : method unit :=
  pts <- getattr self.points ;;
  ptInA <- lift (item pts i) ;;
  affMat <- getattr self.affMat ;;
  av <- lift (affineVec ptInA) ;;
  col <- lift (np.reshape_4_1 av) ;;
  ptInB <- lift (np.matmul affMat col) ;;
  let ptInB := slice 0 3 ptInB in
  affMat <- getattr self.affMat ;;
  av <- lift (affineVec ptInA) ;;
  ptInB <- lift (np.matvec affMat av) ;;
  let ptInB := slice 0 3 ptInB in
  xys <- getattr self.xys ;;
  row <- lift (item xys i) ;;
  row <- lift (set_slice 0 (length row) row (slice 0 2 ptInB)) ;;
  assign (self.set_xys (Some (set_item xys i row))).

(** [parseFoamFile(facesFile)[:,1:4]] *)
Definition face_columns (t : table) : result table :=
  match t with
  | [] => Raise IndexError
  | _ :: _ => Ok (map (slice 1 4) t)
  end.

(** [readFromFoamFile(self, varsFile, pointsFile, facesFile, viewAnchor,
    xViewBasis, yViewBasis)] *)
Definition readFromFoamFile (fs : filesystem) (varsFile pointsFile facesFile : string)
           (viewAnchor xViewBasis yViewBasis : vector) : method unit :=
  assign (self.set_varsFile varsFile) ;;
  assign (self.set_pointsFile pointsFile) ;;
  assign (self.set_facesFile facesFile) ;;
  vars <- lift (parseFoamFile fs varsFile) ;;
  assign (self.set_vars (Some vars)) ;;
  vars <- getattr self.vars ;;
  row <- lift (item vars 1) ;;
  assign (self.set_varRank (length row)) ;;
  storeMesh <- getflag self.storeMesh ;;
  if (storeMesh : bool) then
    pts <- lift (parseFoamFile fs pointsFile) ;;
    assign (self.set_points (Some pts)) ;;
    t <- lift (parseFoamFile fs facesFile) ;;
    fcs <- lift (face_columns t) ;;
    assign (self.set_faces (Some fcs)) ;;
    pts <- getattr self.points ;;
    plDef <- lift (genPlaneData pts) ;;
    assign (self.set_plDef (Some plDef)) ;;
    assign (self.set_viewAnchor (Some viewAnchor)) ;;
    pts <- getattr self.points ;;
    anchor <- getattr self.viewAnchor ;;
    r <- lift (genTransData pts anchor xViewBasis yViewBasis) ;;
    let '(T, invT, viewBasis) := r in
    assign (self.set_affMat (Some T)) ;;
    assign (self.set_invAffMat (Some invT)) ;;
    assign (self.set_viewBasis (Some viewBasis)) ;;
    pts <- getattr self.points ;;
    assign (self.set_xys (Some (np.zeros2 (length pts) 2))) ;;
    xys <- getattr self.xys ;;
    for_range (length xys) project_point
  else
    points <- lift (parseFoamFile fs pointsFile) ;;
    plDef <- lift (genPlaneData points) ;;
    assign (self.set_plDef (Some plDef)) ;;
    assign (self.set_viewAnchor (Some viewAnchor)) ;;
    anchor <- getattr self.viewAnchor ;;
    r <- lift (genTransData points anchor xViewBasis yViewBasis) ;;
    let '(T, invT, viewBasis) := r in
    assign (self.set_affMat (Some T)) ;;
    assign (self.set_invAffMat (Some invT)) ;;
    assign (self.set_viewBasis (Some viewBasis)).

Definition dimension_message : string :=
  "varsArray and pointsArray must have the same dimension. Exit".

(** [constructFromArray(self, varsArray, pointsArray, facesArray, viewAnchor,
    xViewBasis, yViewBasis)].  In the guard, [exit] is an expression
    statement: the name is looked up and nothing is called. *)
Definition constructFromArray (varsArray pointsArray facesArray : table)
           (viewAnchor xViewBasis yViewBasis : vector) : method unit :=
  (if negb (Nat.eqb (length varsArray) (length pointsArray))
   then print dimension_message ;; ret tt
   else ret tt) ;;
  assign (self.set_varsFile EmptyString) ;;
  assign (self.set_pointsFile EmptyString) ;;
  assign (self.set_facesFile EmptyString) ;;
  assign (self.set_vars (Some (np_copy varsArray))) ;;
  vars <- getattr self.vars ;;
  row <- lift (item vars 1) ;;
  assign (self.set_varRank (length row)) ;;
  storeMesh <- getflag self.storeMesh ;;
  if (storeMesh : bool) then
    assign (self.set_points (Some (np_copy pointsArray))) ;;
    assign (self.set_faces (Some (np_copy facesArray))) ;;
    pts <- getattr self.points ;;
    plDef <- lift (genPlaneData pts) ;;
    assign (self.set_plDef (Some plDef)) ;;
    assign (self.set_viewAnchor (Some viewAnchor)) ;;
    pts <- getattr self.points ;;
    anchor <- getattr self.viewAnchor ;;
    r <- lift (genTransData pts anchor xViewBasis yViewBasis) ;;
    let '(T, invT, viewBasis) := r in
    assign (self.set_affMat (Some T)) ;;
    assign (self.set_invAffMat (Some invT)) ;;
    assign (self.set_viewBasis (Some viewBasis)) ;;
    pts <- getattr self.points ;;
    assign (self.set_xys (Some (np.zeros2 (length pts) 2))) ;;
    xys <- getattr self.xys ;;
    for_range (length xys) project_point
  else
    points <- lift (Ok (np_copy pointsArray)) ;;
    plDef <- lift (genPlaneData points) ;;
    assign (self.set_plDef (Some plDef)) ;;
    assign (self.set_viewAnchor (Some viewAnchor)) ;;
    anchor <- getattr self.viewAnchor ;;
    r <- lift (genTransData points anchor xViewBasis yViewBasis) ;;
    let '(T, invT, viewBasis) := r in
    assign (self.set_affMat (Some T)) ;;
    assign (self.set_invAffMat (Some invT)) ;;
    assign (self.set_viewBasis (Some viewBasis)).

(** [readFromVTK(self, vtkFile, viewAnchor, xViewBasis, yViewBasis)]:
    the body is [pass]. *)
Definition readFromVTK (vtkFile : string)
           (viewAnchor xViewBasis yViewBasis : vector) : method unit :=
  ret tt.

(* ===================================================================== *)
(** * Notions used in the statements *)

Definition scale (k : Qc) (u : vector) : vector := map (Qcmult k) u.

(** Two vectors are colinear when one is a multiple of the other; this
    holds in particular when one of them is the zero vector. *)
Definition colinear (u v : vector) : Prop :=
  exists k, v = scale k u \/ u = scale k v.

(** The matrix whose columns are the given vectors of [n] entries. *)
Definition columns (cs : list vector) (n : nat) : table :=
  map (fun i => map (fun c => nth i c 0) cs) (seq 0 n).

(** The basis matrix [xDir, yDir, xDir x yDir]. *)
Definition basisMatrix (x y : vector) : table :=
  match np.cross x y with
  | Ok z => columns [x; y; z] 3
  | Raise _ => []
  end.

(** A square matrix is invertible when some matrix multiplies it to the
    identity. *)
Definition invertible (m : table) : Prop :=
  exists m', np.matmul m m' = Ok (np.identity (length m)).

(** [homogeneous(p)], then a 4x4 matrix applied to it. *)
Definition apply_to_point (m : table) (p : vector) : result vector :=
  hp <- affineVec p ;; np.matvec m hp.

(** All members that a construction call is documented to initialise. *)
Definition geometry_established (s : TriSurface) : Prop :=
  self.vars s <> None /\ self.plDef s <> None /\ self.viewAnchor s <> None
  /\ self.viewBasis s <> None /\ self.affMat s <> None
  /\ self.invAffMat s <> None.

Definition mesh_established (s : TriSurface) : Prop :=
  self.points s <> None /\ self.faces s <> None /\ self.xys s <> None.

Definition fully_established (s : TriSurface) : Prop :=
  geometry_established s /\ mesh_established s.

(** Integers as field values, for concrete inputs. *)
Definition num (z : Z) : Qc := Q2Qc (inject_Z z).

(* ===================================================================== *)
(** * Sample inputs and auxiliary notions *)

Definition nl : string := String "010" EmptyString.

(** A file system with one file. *)
Definition single_file (path text : string) : filesystem :=
  fun p => if String.eqb p path then Some text else None.

(** Two files with a comment line that holds numbers. *)
Definition comment_after_count : string :=
  ("2" ++ nl ++ "// 1 2 3" ++ nl ++ "4 5 6" ++ nl)%string.
Definition comment_before_count : string :=
  ("// 7" ++ nl ++ "1 2 3" ++ nl ++ "4 5 6" ++ nl)%string.

(** The statements that the two construction methods share.  Lines 94-115
    of readFromFoamFile and lines 157-178 of constructFromArray are the
    same text, except for where the points and the faces come from
    ([parseFoamFile] of a path, [np.copy] of an argument): the two loads are
    the arguments [load_points] and [load_faces].  Lemmas
    [constructFromArray_unfold] and [readFromFoamFile_unfold] show that each
    method is its first assignments followed by [establish]. *)
Definition establish (load_points load_faces : result table)
           (viewAnchor xViewBasis yViewBasis : vector) : method unit :=
  vars <- getattr self.vars ;;
  row <- lift (item vars 1) ;;
  assign (self.set_varRank (length row)) ;;
  storeMesh <- getflag self.storeMesh ;;
  if (storeMesh : bool) then
    pts <- lift load_points ;;
    assign (self.set_points (Some pts)) ;;
    fcs <- lift load_faces ;;
    assign (self.set_faces (Some fcs)) ;;
    pts <- getattr self.points ;;
    plDef <- lift (genPlaneData pts) ;;
    assign (self.set_plDef (Some plDef)) ;;
    assign (self.set_viewAnchor (Some viewAnchor)) ;;
    pts <- getattr self.points ;;
    anchor <- getattr self.viewAnchor ;;
    r <- lift (genTransData pts anchor xViewBasis yViewBasis) ;;
    let '(T, invT, viewBasis) := r in
    assign (self.set_affMat (Some T)) ;;
    assign (self.set_invAffMat (Some invT)) ;;
    assign (self.set_viewBasis (Some viewBasis)) ;;
    pts <- getattr self.points ;;
    assign (self.set_xys (Some (np.zeros2 (length pts) 2))) ;;
    xys <- getattr self.xys ;;
    for_range (length xys) project_point
  else
    points <- lift load_points ;;
    plDef <- lift (genPlaneData points) ;;
    assign (self.set_plDef (Some plDef)) ;;
    assign (self.set_viewAnchor (Some viewAnchor)) ;;
    anchor <- getattr self.viewAnchor ;;
    r <- lift (genTransData points anchor xViewBasis yViewBasis) ;;
    let '(T, invT, viewBasis) := r in
    assign (self.set_affMat (Some T)) ;;
    assign (self.set_invAffMat (Some invT)) ;;
    assign (self.set_viewBasis (Some viewBasis)).

(** What the guard and the first assignments of constructFromArray do. *)
Definition guard_output (varsArray pointsArray : table) : list string :=
  if negb (Nat.eqb (length varsArray) (length pointsArray))
  then [dimension_message] else [].

Definition after_sources (varsFile pointsFile facesFile : string)
           (s : TriSurface) : TriSurface :=
  self.set_facesFile facesFile
    (self.set_pointsFile pointsFile (self.set_varsFile varsFile s)).

(** The loop over the points touches [self.xys] only: two objects that
    agree on every other member, the second with xys set if the first has. *)
Definition same_but_xys (s s' : TriSurface) : Prop :=
  self.set_xys None s' = self.set_xys None s
  /\ (self.xys s <> None -> self.xys s' <> None).

Definition load_faces_value (r : result table) : option table :=
  match r with Ok fcs => Some fcs | Raise _ => None end.

Definition triangle : table := [[0; 0; 0]; [1; 0; 0]; [0; 1; 0]].
Definition origin : vector := [0; 0; 0].
Definition e1 : vector := [1; 0; 0].
Definition e2 : vector := [0; 1; 0].

(** The state of the object after a call that fails on the view basis. *)
Definition left_at_singular_basis (s : TriSurface) (o : outcome unit)
           (v pts fcs : table) (row plDef anchor : vector) (e : exn) : Prop :=
  value o = Raise e
  /\ self.vars (self_after o) = Some v
  /\ self.varRank (self_after o) = length row
  /\ self.plDef (self_after o) = Some plDef
  /\ self.viewAnchor (self_after o) = Some anchor
  /\ (self.storeMesh s = true ->
      self.points (self_after o) = Some pts
      /\ self.faces (self_after o) = Some fcs)
  /\ self.affMat (self_after o) = self.affMat s
  /\ self.invAffMat (self_after o) = self.invAffMat s
  /\ self.viewBasis (self_after o) = self.viewBasis s
  /\ self.xys (self_after o) = self.xys s.

(** Three sample files, as the sampling tool writes them. *)
Definition vars_text : string :=
  ("3" ++ nl ++ "(" ++ nl ++ "7" ++ nl ++ "8" ++ nl ++ "9" ++ nl ++ ")" ++ nl)%string.
Definition points_text : string :=
  ("3" ++ nl ++ "(" ++ nl ++ "(0 0 0)" ++ nl ++ "(1 0 0)" ++ nl
       ++ "(0 1 0)" ++ nl ++ ")" ++ nl)%string.
Definition faces_text : string :=
  ("1" ++ nl ++ "(" ++ nl ++ "3(0 1 2)" ++ nl ++ ")" ++ nl)%string.
Definition one_var_text : string :=
  ("1" ++ nl ++ "(" ++ nl ++ "7" ++ nl ++ ")" ++ nl)%string.

Definition sample_files : filesystem :=
  fun path =>
    if String.eqb path "vars" then Some vars_text
    else if String.eqb path "points" then Some points_text
    else if String.eqb path "faces" then Some faces_text
    else if String.eqb path "one_var" then Some one_var_text
    else None.

(* ===================================================================== *)
(** * Further notions used in the statements *)

(** The view coordinates of a point: the first two entries of the affine
    matrix applied to the point in homogeneous form. *)
Definition project (T : table) (p : vector) : result vector :=
  hp <- affineVec p ;;
  v <- np.matvec T hp ;;
  ret (slice 0 2 (slice 0 3 v)).

(** The outcome of a call with a function applied to the object. *)
Definition map_outcome {A} (f : TriSurface -> TriSurface) (o : outcome A)
  : outcome A :=
  match o with
  | mkOutcome s p r => mkOutcome (f s) p r
  end.

(** A line without a decimal digit. *)
Definition no_digit (s : list ascii) : bool :=
  forallb (fun c => negb (re.is_digit c)) s.

(** The rows that the lines after the count line stand for: one row of
    floats per line that holds a token, in the order of the lines. *)
Fixpoint data_rows (ls : list string) : result (list (list Qc)) :=
  match ls with
  | [] => Ok []
  | line :: ls' =>
      match re.findall number_re line with
      | [] => data_rows ls'
      | toks => row <- floats toks ;; rows <- data_rows ls' ;; ret (row :: rows)
      end
  end.

(** The sample files without the faces file, and no file at all. *)
Definition sample_files_without_faces : filesystem :=
  fun path => if String.eqb path "faces" then None else sample_files path.
Definition no_files : filesystem := fun _ => None.

(** A file of rows with no count line. *)
Definition rows_only_text : string :=
  ("1 2 3" ++ nl ++ "4 5 6" ++ nl)%string.

(* ===================================================================== *)
(** * The geometry helpers over any arithmetic *)

(** The geometry helpers use the numbers through [+], [-], [*], unary [-],
    the constants 0 and 1 and [np.linalg.inv] only.  Here they are written
    over any type of numbers with such operations, with no law assumed of
    the operations: what is proved of these definitions holds of exact
    arithmetic and of IEEE double precision alike. *)
Record arithmetic : Type := Arithmetic {
  number : Type;
  zero : number;
  one : number;
  plus : number -> number -> number;
  minus : number -> number -> number;
  times : number -> number -> number;
  negate : number -> number;
  linalg_inv : list (list number) -> result (list (list number)) }.

Module generic.
Section Helpers.

Context (A : arithmetic).
Abbreviation F := (number A).

Definition zeros (n : nat) : list F := repeat (zero A) n.
Definition zeros2 (r c : nat) : list (list F) := repeat (zeros c) r.

Definition identity (n : nat) : list (list F) :=
  map (fun i => set_item (zeros n) i (one A)) (seq 0 n).

Definition column (m : list (list F)) (j : nat) : list F :=
  map (fun r => nth j r (zero A)) m.

Definition elementwise (f : F -> F -> F) (u v : list F) : result (list F) :=
  if Nat.eqb (length u) (length v) then Ok (map2 f u v)
  else match u, v with
       | [a], _ => Ok (map (f a) v)
       | _, [b] => Ok (map (fun x => f x b) u)
       | _, _ => Raise ValueError
       end.

Definition add := elementwise (plus A).
Definition sub := elementwise (minus A).

Fixpoint add_rows (a b : list (list F)) : result (list (list F)) :=
  match a, b with
  | ra :: a', rb :: b' =>
      r <- elementwise (plus A) ra rb ;; t <- add_rows a' b' ;; ret (r :: t)
  | _, _ => Ok []
  end.

Fixpoint add_row_to (ra : list F) (b : list (list F)) : result (list (list F)) :=
  match b with
  | [] => Ok []
  | rb :: b' =>
      r <- elementwise (plus A) ra rb ;; t <- add_row_to ra b' ;; ret (r :: t)
  end.

Fixpoint add_to_row (a : list (list F)) (rb : list F) : result (list (list F)) :=
  match a with
  | [] => Ok []
  | ra :: a' =>
      r <- elementwise (plus A) ra rb ;; t <- add_to_row a' rb ;; ret (r :: t)
  end.

Definition add2 (a b : list (list F)) : result (list (list F)) :=
  if Nat.eqb (length a) (length b) then add_rows a b
  else match a, b with
       | [ra], _ => add_row_to ra b
       | _, [rb] => add_to_row a rb
       | _, _ => Raise ValueError
       end.

Definition cross (u v : list F) : result (list F) :=
  match u, v with
  | [u0; u1; u2], [v0; v1; v2] =>
      Ok [minus A (times A u1 v2) (times A u2 v1);
          minus A (times A u2 v0) (times A u0 v2);
          minus A (times A u0 v1) (times A u1 v0)]
  | _, _ => Raise ValueError
  end.

Definition sum (u : list F) : F := fold_right (plus A) (zero A) u.

Definition dot (u v : list F) : result F :=
  if Nat.eqb (length u) (length v) then Ok (sum (map2 (times A) u v))
  else Raise ValueError.

Fixpoint matvec (m : list (list F)) (v : list F) : result (list F) :=
  match m with
  | [] => Ok []
  | r :: m' => x <- dot r v ;; t <- matvec m' v ;; ret (x :: t)
  end.

Definition matmul (a b : list (list F)) : result (list (list F)) :=
  if rectangular (length b) a then
    match b with
    | [] => Ok (map (fun _ => []) a)
    | r :: _ =>
        if rectangular (length r) b
        then Ok (map (fun ra => map (fun j => sum (map2 (times A) ra (column b j)))
                                    (seq 0 (length r))) a)
        else Raise ValueError
    end
  else Raise ValueError.

(** [affineVec(self, vec)] *)
Definition affineVec (vec : list F) : result (list F) :=
  let affineVec := zeros (length vec + 1) in
  let affineVec := set_item affineVec (length affineVec - 1) (one A) in
  s <- add (slice 0 (length vec) affineVec) vec ;;
  set_slice 0 (length vec) affineVec s.

(** [affineMat(self, mat, trans)] *)
Definition affineMat (mat : list (list F)) (trans : list F)
  : result (list (list F)) :=
  let nbl := length mat in
  let nbr := length mat in
  let affineMat := zeros2 (nbl + 1) (nbr + 1) in
  blk <- add2 (map (slice 0 nbl) (slice 0 nbl affineMat)) mat ;;
  affineMat <-
    (if Nat.eqb (length blk) nbl && rectangular nbl blk
     then Ok (map2 (fun r b => b ++ skipn nbl r) (slice 0 nbl affineMat) blk
              ++ skipn nbl affineMat)%list
     else Raise ValueError) ;;
  col <- add (slice 0 nbr (column affineMat nbr)) trans ;;
  affineMat <- (if Nat.eqb (length col) nbr then Ok (set_col affineMat nbr col)
                else Raise ValueError) ;;
  last_row <- item affineMat nbl ;;
  ret (set_item affineMat nbl (set_item last_row nbr (one A))).

(** [genPlaneData(self, points)] *)
Definition genPlaneData (points : list (list F)) : result (list F) :=
  p1 <- item points 1 ;;
  p0 <- item points 0 ;;
  v1 <- sub p1 p0 ;;
  p2 <- item points 2 ;;
  v2 <- sub p2 p0 ;;
  plNorm <- cross v1 v2 ;;
  let plDef := zeros 4 in
  s <- add (slice 0 3 plDef) plNorm ;;
  plDef <- set_slice 0 3 plDef s ;;
  afpt <- affineVec p0 ;;
  c <- dot plDef afpt ;;
  ret (set_item plDef 3 (negate A c)).

Definition store_col (m : list (list F)) (j : nat) (v : list F)
  : result (list (list F)) :=
  if Nat.eqb (length v) (length m) then Ok (set_col m j v)
  else match v with
       | [x] => Ok (set_col m j (repeat x (length m)))
       | _ => Raise ValueError
       end.

(** [genTransData(self, points, viewAnchor, xViewBasis, yViewBasis)] *)
Definition genTransData (points : list (list F))
           (viewAnchor xViewBasis yViewBasis : list F)
  : result (list (list F) * list (list F) * list (list F)) :=
  let viewBasis := zeros2 3 3 in
  zViewBasis <- cross xViewBasis yViewBasis ;;
  viewBasis <- store_col viewBasis 0 xViewBasis ;;
  viewBasis <- store_col viewBasis 1 yViewBasis ;;
  viewBasis <- store_col viewBasis 2 zViewBasis ;;
  translation <- sub viewAnchor (zeros 3) ;;
  invT <- affineMat viewBasis translation ;;
  T <- linalg_inv A invT ;;
  ret (T, invT, viewBasis).

End Helpers.
End generic.

(** Exact arithmetic: the rationals and the inverse by cofactors. *)
Definition exact : arithmetic :=
  Arithmetic Qc 0 1 Qcplus Qcminus Qcmult Qcopp np.linalg.inv.

(** IEEE double precision.  [np.linalg.inv] is LAPACK's [gesv] on the
    identity: Gaussian elimination with partial pivoting (the first row of
    largest magnitude in the column becomes the pivot row), then back
    substitution; numpy raises LinAlgError when a pivot is exactly zero and
    when the matrix is not square.  LAPACK does not fix the order of the
    operations inside one elimination step: [f64.inv] is used below on
    matrices for which every operation of the elimination is exact, so that
    every order gives the same matrix. *)
Module f64.

Definition entry (r : list PrimFloat.float) (k : nat) : PrimFloat.float :=
  nth k r PrimFloat.zero.

(** The position of the first row of largest magnitude in column [k]. *)
Fixpoint pivot_index (k : nat) (rows : list (list PrimFloat.float)) : nat :=
  match rows with
  | [] => 0
  | r :: rows' =>
      let j := pivot_index k rows' in
      match nth_error rows' j with
      | Some r' =>
          if PrimFloat.ltb (PrimFloat.abs (entry r k)) (PrimFloat.abs (entry r' k))
          then S j else 0
      | None => 0
      end
  end.

(** Row interchange: the row at [j] and the first row change places. *)
Definition interchange (j : nat) (rows : list (list PrimFloat.float))
  : list (list PrimFloat.float) :=
  match j, rows with
  | S j', r :: rows' =>
      match nth_error rows' j' with
      | Some p => p :: set_item rows' j' r
      | None => rows
      end
  | _, _ => rows
  end.

(** Elimination below the diagonal of the rows [k..] of [A | I];
    [n] counts the rows that are left. *)
Fixpoint eliminate (n k : nat) (rows : list (list PrimFloat.float))
  : result (list (list PrimFloat.float)) :=
  match n with
  | O => Ok rows
  | S n' =>
      match interchange (pivot_index k rows) rows with
      | [] => Ok []
      | p :: others =>
          if PrimFloat.eqb (entry p k) PrimFloat.zero then Raise LinAlgError
          else
            let reduce r :=
              let l := PrimFloat.div (entry r k) (entry p k) in
              map2 (fun a b => PrimFloat.sub a (PrimFloat.mul l b)) r p in
            rest <- eliminate n' (S k) (map reduce others) ;;
            ret (p :: rest)
      end
  end.

(** Back substitution on the rows [i..] of [U | B]: the rows [i..] of the
    solution of [U X = B]. *)
Fixpoint back_substitute (n i : nat) (rows : list (list PrimFloat.float))
  : list (list PrimFloat.float) :=
  match rows with
  | [] => []
  | r :: rows' =>
      let xs := back_substitute n (S i) rows' in
      let u := firstn (n - S i) (skipn (S i) r) in
      let b := skipn n r in
      let s :=
        fold_left
          (fun acc ux =>
             map2 (fun a x => PrimFloat.sub a (PrimFloat.mul (fst ux) x))
                  acc (snd ux))
          (combine u xs) b in
      map (fun a => PrimFloat.div a (entry r i)) s :: xs
  end.

Definition identity_row (n i : nat) : list PrimFloat.float :=
  set_item (repeat PrimFloat.zero n) i PrimFloat.one.

(** [np.linalg.inv] *)
Definition inv (m : list (list PrimFloat.float))
  : result (list (list PrimFloat.float)) :=
  let n := length m in
  if rectangular n m then
    rows <- eliminate n 0 (map2 (fun r i => r ++ identity_row n i)%list m (seq 0 n)) ;;
    ret (back_substitute n 0 rows)
  else Raise LinAlgError.

End f64.

Definition float64 : arithmetic :=
  Arithmetic PrimFloat.float PrimFloat.zero PrimFloat.one
             PrimFloat.add PrimFloat.sub PrimFloat.mul PrimFloat.opp f64.inv.

(** ** Notions for the statements over any arithmetic *)



(** [np.cross] of two 3-vectors, entry by entry. *)
Definition cross_entries (A : arithmetic) (x y : list (number A))
  : list (number A) :=
  let get (v : list (number A)) (i : nat) := nth i v (zero A) in
  [minus A (times A (get x 1%nat) (get y 2%nat)) (times A (get x 2%nat) (get y 1%nat));
   minus A (times A (get x 2%nat) (get y 0%nat)) (times A (get x 0%nat) (get y 2%nat));
   minus A (times A (get x 0%nat) (get y 1%nat)) (times A (get x 1%nat) (get y 0%nat))].




(** ** Notions for the statements about the construction methods *)

(** The members after a construction call that returned, from the object
    [s] before the call: each member holds the value computed from the
    vars table [v], the points [pts] and the faces that were loaded. *)
Definition established_from (s : TriSurface) (o : outcome unit)
           (v pts : table) (load_faces : result table)
           (viewAnchor xViewBasis yViewBasis : vector) : Prop :=
  exists row plDef T invT viewBasis,
    item v 1 = Ok row
    /\ genPlaneData pts = Ok plDef
    /\ genTransData pts viewAnchor xViewBasis yViewBasis = Ok (T, invT, viewBasis)
    /\ self.vars (self_after o) = Some v
    /\ self.varRank (self_after o) = length row
    /\ self.plDef (self_after o) = Some plDef
    /\ self.viewAnchor (self_after o) = Some viewAnchor
    /\ self.viewBasis (self_after o) = Some viewBasis
    /\ self.affMat (self_after o) = Some T
    /\ self.invAffMat (self_after o) = Some invT
    /\ (self.storeMesh s = true ->
        exists fcs X,
          load_faces = Ok fcs
          /\ self.points (self_after o) = Some pts
          /\ self.faces (self_after o) = Some fcs
          /\ self.xys (self_after o) = Some X
          /\ length X = length pts
          /\ forall i p, nth_error pts i = Some p ->
               exists r, project T p = Ok r /\ nth_error X i = Some r).

(** ** Notions for the statements about the parser *)

(** A text of ASCII characters. *)
Definition is_ascii (s : string) : bool :=
  forallb (fun c => Nat.ltb (nat_of_ascii c) 128) (list_ascii_of_string s).

(** The numbers of tokens of the lines that hold a token. *)
Definition token_counts (ls : list string) : list nat :=
  filter (Nat.ltb 0) (map (fun line => length (re.findall number_re line)) ls).

(** A file with a header line before the count line, and a file ended by
    carriage returns. *)
Definition header_text : string :=
  ("FoamFile 1.0 2.0" ++ nl ++ "3" ++ nl ++ "1 2 3" ++ nl ++ "4 5 6" ++ nl)%string.
Definition cr : string := String "013" EmptyString.
Definition cr_text : string :=
  ("2" ++ cr ++ "1 2 3" ++ cr ++ "4 5 6" ++ cr)%string.

(* ===================================================================== *)
(** * Proof tools *)

(** Evaluate everything but the field operations. *)
Ltac evalq :=
  cbv -[Qcplus Qcmult Qcminus Qcopp Qcdiv Qcinv Q2Qc Qc_eq_bool not].
Ltac evalq_in H :=
  cbv -[Qcplus Qcmult Qcminus Qcopp Qcdiv Qcinv Q2Qc Qc_eq_bool not] in H.

(** Name the three entries of a vector of length 3. *)
Ltac vec3 v H :=
  destruct v as [|? [|? [|? [|? ?]]]]; try discriminate H; clear H.

(** Equality of closed values built from rationals: compare the fractions. *)
Ltac qc_closed :=
  vm_compute;
  repeat match goal with
         | |- Some _ = Some _ => apply f_equal
         | |- Ok _ = Ok _ => apply f_equal
         | |- (_, _) = (_, _) => apply f_equal2
         | |- cons _ _ = cons _ _ => apply (f_equal2 (@cons _))
         | |- @eq Qc _ _ => apply Qc_is_canon; reflexivity
         | |- _ /\ _ => split
         | |- _ => reflexivity
         end.

(** Split an equation between lists of rationals into its entries. *)
Ltac entries :=
  repeat (apply (f_equal (@Ok _)) || apply (f_equal (@Some _))
          || apply (f_equal2 (@cons _)));
  try reflexivity.

Lemma vec3_inj (a b c a' b' c' : Qc) :
  [a; b; c] = [a'; b'; c'] -> a = a' /\ b = b' /\ c = c'.
Proof.
  intros H. repeat split.
  - exact (f_equal (fun l => nth 0 l 0) H).
  - exact (f_equal (fun l => nth 1 l 0) H).
  - exact (f_equal (fun l => nth 2 l 0) H).
Qed.

Lemma Qc_eq_bool_false (x y : Qc) : x <> y -> Qc_eq_bool x y = false.
Proof.
  intros H. destruct (Qc_eq_bool x y) eqn:E; [| reflexivity].
  apply Qc_eq_bool_correct in E. contradiction.
Qed.

Lemma Qc_eq_bool_true (x y : Qc) : x = y -> Qc_eq_bool x y = true.
Proof.
  intros ->. unfold Qc_eq_bool. destruct (Qc_eq_dec y y); congruence.
Qed.

(* ===================================================================== *)
(** * The geometry helpers in exact arithmetic *)

(** The lemmas of this part hold of the helpers over exact rationals: they
    say what the formulas of the code compute when no operation rounds.
    What is stated of the code as it runs, in double precision, is in the
    next part. *)

(** ** affineVec and genPlaneData *)

Lemma affineVec_3 (a b c : Qc) : affineVec [a; b; c] = Ok [a; b; c; 1].
Proof. evalq. entries; ring. Qed.

(** The plane equation of three points, written out. *)
Lemma genPlaneData_formula (a0 a1 a2 b0 b1 b2 c0 c1 c2 : Qc) (rest : table) :
  let n0 := (b1 - a1) * (c2 - a2) - (b2 - a2) * (c1 - a1) in
  let n1 := (b2 - a2) * (c0 - a0) - (b0 - a0) * (c2 - a2) in
  let n2 := (b0 - a0) * (c1 - a1) - (b1 - a1) * (c0 - a0) in
  genPlaneData ([a0; a1; a2] :: [b0; b1; b2] :: [c0; c1; c2] :: rest)
  = Ok [n0; n1; n2; - (n0 * a0 + n1 * a1 + n2 * a2)].
Proof. evalq. entries; ring. Qed.

(** Plane membership in exact arithmetic: the plane equation that
    genPlaneData returns holds at each of the three points it is fitted
    to. *)
Lemma genPlaneData_membership (a0 a1 a2 b0 b1 b2 c0 c1 c2 : Qc)
      (rest : table) (plDef : vector) :
  genPlaneData ([a0; a1; a2] :: [b0; b1; b2] :: [c0; c1; c2] :: rest) = Ok plDef ->
  forall p, In p [[a0; a1; a2]; [b0; b1; b2]; [c0; c1; c2]] ->
  exists hp, affineVec p = Ok hp /\ np.dot plDef hp = Ok 0.
Proof.
  intros H p Hp.
  rewrite genPlaneData_formula in H. injection H as <-.
  destruct Hp as [<- | [<- | [<- | []]]];
    (eexists; split; [apply affineVec_3 |]); evalq; apply f_equal; ring.
Qed.

(** The code has no test on the normal: three colinear points give the
    equation (0,0,0,0). *)
Lemma genPlaneData_zero_normal_example :
  genPlaneData [[0; 0; 0]; [1; 0; 0]; [num 2; 0; 0]] = Ok [0; 0; 0; 0]
  /\ ~ raises (genPlaneData [[0; 0; 0]; [1; 0; 0]; [num 2; 0; 0]]).
Proof.
  assert (E : genPlaneData [[0; 0; 0]; [1; 0; 0]; [num 2; 0; 0]] = Ok [0; 0; 0; 0])
    by qc_closed.
  split; [exact E |]. intros [e He]. rewrite E in He. discriminate He.
Qed.

(** In exact arithmetic three colinear points give the equation (0,0,0,0);
    in double precision the differences p1 - p0 and p2 - p0 are rounded
    before the cross product is taken, see [genPlaneData_float64_colinear]. *)
Lemma genPlaneData_colinear_zero_normal (p0 p1 p2 : vector) (rest : table) :
  length p0 = 3%nat -> length p1 = 3%nat -> length p2 = 3%nat ->
  colinear (map2 Qcminus p1 p0) (map2 Qcminus p2 p0) ->
  genPlaneData (p0 :: p1 :: p2 :: rest) = Ok [0; 0; 0; 0].
Proof.
  intros L0 L1 L2 [k Hk].
  vec3 p0 L0. vec3 p1 L1. vec3 p2 L2.
  rewrite genPlaneData_formula. cbv zeta.
  evalq_in Hk.
  destruct Hk as [Hk | Hk]; apply vec3_inj in Hk; destruct Hk as (E0 & E1 & E2);
    rewrite E0, E1, E2; entries; ring.
Qed.

(** ** genTransData *)

Lemma basisMatrix_3 (x0 x1 x2 y0 y1 y2 : Qc) :
  basisMatrix [x0; x1; x2] [y0; y1; y2]
  = [[x0; y0; x1 * y2 - x2 * y1];
     [x1; y1; x2 * y0 - x0 * y2];
     [x2; y2; x0 * y1 - x1 * y0]].
Proof. reflexivity. Qed.

(** The determinant of the basis matrix is the squared length of the cross product. *)
Lemma det_basisMatrix (x0 x1 x2 y0 y1 y2 : Qc) :
  np.linalg.det (basisMatrix [x0; x1; x2] [y0; y1; y2])
  = (x1 * y2 - x2 * y1) * (x1 * y2 - x2 * y1)
    + (x2 * y0 - x0 * y2) * (x2 * y0 - x0 * y2)
    + (x0 * y1 - x1 * y0) * (x0 * y1 - x1 * y0).
Proof. evalq. ring. Qed.

(** A right inverse of a 3x3 matrix has the inverse determinant. *)
Lemma matmul_identity_det_3 (a00 a01 a02 a10 a11 a12 a20 a21 a22 : Qc) (b : table) :
  let a := [[a00; a01; a02]; [a10; a11; a12]; [a20; a21; a22]] in
  np.matmul a b = Ok (np.identity 3) ->
  np.linalg.det a * np.linalg.det b = 1.
Proof.
  intros a H. subst a.
  destruct b as [|b0 [|b1 [|b2 [|? ?]]]]; try discriminate H.
  assert (W : length b0 = 3%nat).
  { unfold np.matmul in H.
    destruct (rectangular (length [b0; b1; b2]) _); [| discriminate H].
    destruct (rectangular (length b0) _); [| discriminate H].
    apply (f_equal (fun r => match r with Ok (r0 :: _) => length r0 | _ => 0%nat end)) in H.
    cbn in H. rewrite length_map, length_seq in H. exact H. }
  vec3 b0 W.
  destruct b1 as [|? [|? [|? [|? ?]]]]; try discriminate H;
    destruct b2 as [|? [|? [|? [|? ?]]]]; try discriminate H.
  apply (f_equal (fun r => match r with Ok c => np.linalg.det c | Raise _ => 0 end)) in H.
  evalq_in H. evalq.
  etransitivity; [| etransitivity; [exact H |]]; ring.
Qed.

Lemma invertible_det_basisMatrix (x y : vector) :
  length x = 3%nat -> length y = 3%nat ->
  invertible (basisMatrix x y) -> np.linalg.det (basisMatrix x y) <> 0.
Proof.
  intros Lx Ly [m' H] E. vec3 x Lx. vec3 y Ly.
  rewrite basisMatrix_3 in *.
  apply matmul_identity_det_3 in H.
  rewrite E, Qcmult_0_l in H.
  apply Q_apart_0_1. symmetry. exact H.
Qed.

(** The inverse by cofactors is an inverse: on a 3x3 matrix of non-zero
    determinant, and on the 4x4 matrices that genTransData builds. *)
Ltac inverse_entries Hd :=
  unfold Qcdiv;
  let Hi := fresh "Hi" in
  let i := fresh "i" in
  match type of Hd with
  | ?d <> 0 =>
      pose proof (Qcmult_inv_r d Hd) as Hi;
      generalize dependent (/ d); intros i Hi
  end;
  entries;
  first [ ring | (etransitivity; [| exact Hi]); ring ].

Lemma det_invertible_basisMatrix (x y : vector) :
  length x = 3%nat -> length y = 3%nat ->
  np.linalg.det (basisMatrix x y) <> 0 -> invertible (basisMatrix x y).
Proof.
  intros Lx Ly Hd. vec3 x Lx. vec3 y Ly.
  rewrite basisMatrix_3 in *.
  match type of Hd with
  | np.linalg.det ?m <> 0 =>
      destruct (np.linalg.inv m) as [m' |] eqn:E; [exists m' |]
  end.
  - evalq_in Hd. evalq_in E.
    rewrite (Qc_eq_bool_false _ _ Hd) in E. injection E as <-.
    evalq. inverse_entries Hd.
  - evalq_in Hd. evalq_in E.
    rewrite (Qc_eq_bool_false _ _ Hd) in E. discriminate E.
Qed.

(** The affine matrix has the determinant of its linear part. *)
Lemma genTransData_cases (points : table) (a0 a1 a2 x0 x1 x2 y0 y1 y2 : Qc) :
  let B := basisMatrix [x0; x1; x2] [y0; y1; y2] in
  let invT := [[x0; y0; x1 * y2 - x2 * y1; a0];
               [x1; y1; x2 * y0 - x0 * y2; a1];
               [x2; y2; x0 * y1 - x1 * y0; a2];
               [0; 0; 0; 1]] in
  (np.linalg.det B = 0 /\
   genTransData points [a0; a1; a2] [x0; x1; x2] [y0; y1; y2] = Raise LinAlgError)
  \/
  (np.linalg.det B <> 0 /\
   exists T, genTransData points [a0; a1; a2] [x0; x1; x2] [y0; y1; y2]
             = Ok (T, invT, B)
     /\ length T = 4%nat /\ rectangular 4 T = true
     /\ np.matmul T invT = Ok (np.identity 4)
     /\ np.matmul invT T = Ok (np.identity 4)).
Proof.
  intros B invT. subst B invT. rewrite basisMatrix_3.
  evalq.
  match goal with
  | |- context [Qc_eq_bool ?d 0] =>
      match goal with
      | |- (?d3 = 0 /\ _) \/ _ => assert (Ed : d = d3) by ring
      end;
      destruct (Qc_eq_bool d 0) eqn:Eb
  end.
  - left. apply Qc_eq_bool_correct in Eb. split; [| reflexivity].
    rewrite <- Ed. exact Eb.
  - right.
    match type of Eb with
    | Qc_eq_bool ?d 0 = false =>
        assert (Hd : d <> 0)
          by (intro E; rewrite (Qc_eq_bool_true _ _ E) in Eb; discriminate Eb)
    end.
    split; [rewrite <- Ed; exact Hd |].
    clear Eb Ed.
    eexists. split; [| split; [| split; [| split]]].
    + apply f_equal, f_equal2; [apply f_equal2; [reflexivity |] |]; entries; ring.
    + reflexivity.
    + reflexivity.
    + evalq. inverse_entries Hd.
    + evalq. inverse_entries Hd.
Qed.

(** Shapes: the rows and entries of a 4x4 array, by name. *)
Ltac vec4 v H :=
  destruct v as [|? [|? [|? [|? [|? ?]]]]]; try discriminate H; clear H.

Ltac tab4 T L R :=
  let r0 := fresh "r" in
  let r1 := fresh "r" in
  let r2 := fresh "r" in
  let r3 := fresh "r" in
  let W0 := fresh "W" in
  let W1 := fresh "W" in
  let W2 := fresh "W" in
  let W3 := fresh "W" in
  destruct T as [|r0 [|r1 [|r2 [|r3 [|? ?]]]]]; try discriminate L; clear L;
  cbn in R;
  apply andb_prop in R; destruct R as [W0 R];
  apply andb_prop in R; destruct R as [W1 R];
  apply andb_prop in R; destruct R as [W2 R];
  apply andb_prop in R; destruct R as [W3 R]; clear R;
  apply Nat.eqb_eq in W0, W1, W2, W3;
  vec4 r0 W0; vec4 r1 W1; vec4 r2 W2; vec4 r3 W3.

(** Applying B and then A to a vector is applying the product A.B. *)
Lemma matvec_matmul_4 (A B C : table) (v : vector) :
  length A = 4%nat -> rectangular 4 A = true ->
  length B = 4%nat -> rectangular 4 B = true ->
  length v = 4%nat ->
  np.matmul A B = Ok C ->
  (w <- np.matvec B v ;; np.matvec A w) = np.matvec C v.
Proof.
  intros LA RA LB RB Lv H.
  tab4 A LA RA. tab4 B LB RB. vec4 v Lv.
  evalq_in H. injection H as <-.
  evalq. entries; ring.
Qed.

Lemma matvec_identity_4 (v : vector) :
  length v = 4%nat -> np.matvec (np.identity 4) v = Ok v.
Proof. intros Lv. vec4 v Lv. evalq. entries; ring. Qed.

(** In exact arithmetic: for every anchor and every pair of directions
    whose basis matrix [xDir, yDir, xDir x yDir] is invertible,
    genTransData returns a pair (T, invT) with T . invT equal to the
    identity, and for every point p, invT applied to T applied to
    homogeneous(p) is homogeneous(p). *)
Lemma genTransData_inverse_pair
        (points : table) (viewAnchor xViewBasis yViewBasis : vector) :
  length viewAnchor = 3%nat ->
  length xViewBasis = 3%nat -> length yViewBasis = 3%nat ->
  invertible (basisMatrix xViewBasis yViewBasis) ->
  exists T invT,
    genTransData points viewAnchor xViewBasis yViewBasis
    = Ok (T, invT, basisMatrix xViewBasis yViewBasis)
    /\ np.matmul T invT = Ok (np.identity 4)
    /\ forall p, length p = 3%nat ->
         exists hp, affineVec p = Ok hp
           /\ (w <- apply_to_point T p ;; np.matvec invT w) = Ok hp.
Proof.
  intros La Lx Ly Hinv.
  apply invertible_det_basisMatrix in Hinv; [| assumption | assumption].
  vec3 viewAnchor La. vec3 xViewBasis Lx. vec3 yViewBasis Ly.
  match goal with
  | |- context [genTransData _ [?a0; ?a1; ?a2] [?x0; ?x1; ?x2] [?y0; ?y1; ?y2]] =>
      destruct (genTransData_cases points a0 a1 a2 x0 x1 x2 y0 y1 y2)
        as [[E _] | [_ (T & HT & LT & RT & HTi & HiT)]]
  end.
  - contradiction.
  - eexists T, _. split; [exact HT |]. split; [exact HTi |].
    intros p Lp. vec3 p Lp.
    eexists. split; [apply affineVec_3 |].
    unfold apply_to_point. rewrite affineVec_3.
    cbv [bind Monad_result].
    match goal with
    | |- _ = Ok ?hp =>
        transitivity (np.matvec (np.identity 4) hp);
          [| apply matvec_identity_4; reflexivity]
    end.
    apply (matvec_matmul_4 _ T); auto.
Qed.

(** In exact arithmetic a basis matrix that is not invertible is refused
    by the inversion. *)
Lemma genTransData_not_invertible
      (points : table) (viewAnchor xViewBasis yViewBasis : vector) :
  length viewAnchor = 3%nat ->
  length xViewBasis = 3%nat -> length yViewBasis = 3%nat ->
  ~ invertible (basisMatrix xViewBasis yViewBasis) ->
  genTransData points viewAnchor xViewBasis yViewBasis = Raise LinAlgError.
Proof.
  intros La Lx Ly Hn.
  assert (Hd : ~ np.linalg.det (basisMatrix xViewBasis yViewBasis) <> 0).
  { intros Hd. apply Hn. apply det_invertible_basisMatrix; assumption. }
  vec3 viewAnchor La. vec3 xViewBasis Lx. vec3 yViewBasis Ly.
  match goal with
  | |- genTransData _ [?a0; ?a1; ?a2] [?x0; ?x1; ?x2] [?y0; ?y1; ?y2] = _ =>
      destruct (genTransData_cases points a0 a1 a2 x0 x1 x2 y0 y1 y2)
        as [[_ E] | [Hd' _]]
  end.
  - exact E.
  - contradiction.
Qed.

(** In exact arithmetic: for every anchor and every pair of directions that
    are colinear, or of which one is the zero vector, the matrix inversion
    raises LinAlgError and no transform is returned. *)
Lemma genTransData_singular_basis
        (points : table) (viewAnchor xViewBasis yViewBasis : vector) :
  length viewAnchor = 3%nat ->
  length xViewBasis = 3%nat -> length yViewBasis = 3%nat ->
  colinear xViewBasis yViewBasis
  \/ xViewBasis = np.zeros 3 \/ yViewBasis = np.zeros 3 ->
  genTransData points viewAnchor xViewBasis yViewBasis = Raise LinAlgError
  /\ ~ invertible (basisMatrix xViewBasis yViewBasis).
Proof.
  intros La Lx Ly H.
  assert (Hd : np.linalg.det (basisMatrix xViewBasis yViewBasis) = 0).
  { vec3 xViewBasis Lx. vec3 yViewBasis Ly.
    rewrite det_basisMatrix.
    destruct H as [[k [H | H]] | [H | H]];
      apply vec3_inj in H; destruct H as (E0 & E1 & E2);
      rewrite E0, E1, E2; ring. }
  assert (Hn : ~ invertible (basisMatrix xViewBasis yViewBasis)).
  { intros Hi. apply invertible_det_basisMatrix in Hi; auto. }
  split; [| exact Hn].
  apply genTransData_not_invertible; assumption.
Qed.

(** In exact arithmetic the transform T that genTransData returns sends
    the anchor to the origin of the view, the anchor moved by xViewBasis to
    (1,0,0) and the anchor moved by yViewBasis to (0,1,0). *)
Lemma genTransData_view_frame
        (points : table) (a0 a1 a2 x0 x1 x2 y0 y1 y2 : Qc) (T invT viewBasis : table) :
  genTransData points [a0; a1; a2] [x0; x1; x2] [y0; y1; y2]
  = Ok (T, invT, viewBasis) ->
  apply_to_point T [a0; a1; a2] = Ok [0; 0; 0; 1]
  /\ apply_to_point T [a0 + x0; a1 + x1; a2 + x2] = Ok [1; 0; 0; 1]
  /\ apply_to_point T [a0 + y0; a1 + y1; a2 + y2] = Ok [0; 1; 0; 1].
Proof.
  intros H.
  destruct (genTransData_cases points a0 a1 a2 x0 x1 x2 y0 y1 y2)
    as [[_ E] | [_ (T' & HT & LT & RT & HTi & _)]].
  - rewrite E in H. discriminate H.
  - rewrite HT in H. injection H as <- <- <-.
    assert (K : forall v w,
               length v = 4%nat ->
               np.matvec [[x0; y0; x1 * y2 - x2 * y1; a0];
                          [x1; y1; x2 * y0 - x0 * y2; a1];
                          [x2; y2; x0 * y1 - x1 * y0; a2];
                          [0; 0; 0; 1]] v = Ok w ->
               np.matvec T' w = Ok v).
    { intros v w Lv Hw.
      pose proof (fun LB RB => matvec_matmul_4 T' _ _ v LT RT LB RB Lv HTi) as M.
      specialize (M eq_refl eq_refl).
      rewrite Hw in M. cbn [bind Monad_result] in M.
      rewrite M. apply matvec_identity_4. exact Lv. }
    unfold apply_to_point. rewrite !affineVec_3. cbn [bind Monad_result].
    repeat split; apply K; try reflexivity; evalq; entries; ring.
Qed.

(** In exact arithmetic genTransData returns a result exactly when the
    basis matrix [x, y, x cross y] is invertible, and raises LinAlgError
    exactly when it is not. *)
Lemma genTransData_returns_iff_invertible
        (points : table) (viewAnchor xViewBasis yViewBasis : vector) :
  length viewAnchor = 3%nat ->
  length xViewBasis = 3%nat -> length yViewBasis = 3%nat ->
  ((exists r, genTransData points viewAnchor xViewBasis yViewBasis = Ok r)
   <-> invertible (basisMatrix xViewBasis yViewBasis))
  /\ (genTransData points viewAnchor xViewBasis yViewBasis = Raise LinAlgError
      <-> ~ invertible (basisMatrix xViewBasis yViewBasis)).
Proof.
  intros La Lx Ly.
  assert (D : np.linalg.det (basisMatrix xViewBasis yViewBasis) <> 0
              <-> invertible (basisMatrix xViewBasis yViewBasis)).
  { split.
    - apply det_invertible_basisMatrix; assumption.
    - apply invertible_det_basisMatrix; assumption. }
  vec3 viewAnchor La. vec3 xViewBasis Lx. vec3 yViewBasis Ly.
  match goal with
  | |- context [genTransData _ [?a0; ?a1; ?a2] [?x0; ?x1; ?x2] [?y0; ?y1; ?y2]] =>
      destruct (genTransData_cases points a0 a1 a2 x0 x1 x2 y0 y1 y2)
        as [[E R] | [N (T & HT & _)]]
  end.
  - rewrite R. split; split.
    + intros [r Hr]. discriminate Hr.
    + intros I. apply D in I. contradiction.
    + intros _ I. apply D in I. contradiction.
    + reflexivity.
  - rewrite HT. split; split.
    + intros _. apply D. exact N.
    + intros _. eexists. reflexivity.
    + intros H. discriminate H.
    + intros H. exfalso. apply H. apply D. exact N.
Qed.

(* ===================================================================== *)
(** * The geometry helpers in any arithmetic *)

(** At exact arithmetic they are the helpers of the first part. *)
Lemma generic_at_exact (points mat : table) (vec viewAnchor xViewBasis yViewBasis : vector) :
  generic.affineVec exact vec = affineVec vec
  /\ generic.affineMat exact mat vec = affineMat mat vec
  /\ generic.genPlaneData exact points = genPlaneData points
  /\ generic.genTransData exact points viewAnchor xViewBasis yViewBasis
     = genTransData points viewAnchor xViewBasis yViewBasis.
Proof. repeat split. Qed.

(** genPlaneData on three 3D points, statement by statement: no step
    raises and no step looks at the normal. *)
Lemma genPlaneData_steps (A : arithmetic)
      (a0 a1 a2 b0 b1 b2 c0 c1 c2 : number A) (rest : list (list (number A))) :
  let p0 := [a0; a1; a2] in
  let v1 := [minus A b0 a0; minus A b1 a1; minus A b2 a2] in
  let v2 := [minus A c0 a0; minus A c1 a1; minus A c2 a2] in
  let normal := map (plus A (zero A)) (cross_entries A v1 v2) in
  let afpt := [plus A (zero A) a0; plus A (zero A) a1; plus A (zero A) a2; one A] in
  generic.sub A [b0; b1; b2] p0 = Ok v1
  /\ generic.sub A [c0; c1; c2] p0 = Ok v2
  /\ generic.cross A v1 v2 = Ok (cross_entries A v1 v2)
  /\ generic.add A (generic.zeros A 3) (cross_entries A v1 v2) = Ok normal
  /\ generic.affineVec A p0 = Ok afpt
  /\ generic.genPlaneData A (p0 :: [b0; b1; b2] :: [c0; c1; c2] :: rest)
     = (c <- generic.dot A (normal ++ [zero A]) afpt ;;
        ret (normal ++ [negate A c]))%list.
Proof. repeat split. Qed.

(** C2 (as the code has it): for every list of at least three 3D points,
    colinear or not, in exact arithmetic and in double precision alike,
    genPlaneData raises nothing: it returns the four entries made of
    np.cross(p1 - p0, p2 - p0), added to zeros, and of minus the np.dot of
    these with the homogeneous p0; no statement tests the normal. *)
Theorem genPlaneData_returns_equation (A : arithmetic)
        (p0 p1 p2 : list (number A)) (rest : list (list (number A))) :
  length p0 = 3%nat -> length p1 = 3%nat -> length p2 = 3%nat ->
  exists v1 v2 plNorm normal afpt c,
    generic.sub A p1 p0 = Ok v1
    /\ generic.sub A p2 p0 = Ok v2
    /\ generic.cross A v1 v2 = Ok plNorm
    /\ generic.add A (generic.zeros A 3) plNorm = Ok normal
    /\ length normal = 3%nat
    /\ generic.affineVec A p0 = Ok afpt
    /\ generic.dot A (normal ++ [zero A]) afpt = Ok c
    /\ generic.genPlaneData A (p0 :: p1 :: p2 :: rest)
       = Ok (normal ++ [negate A c])%list
    /\ ~ raises (generic.genPlaneData A (p0 :: p1 :: p2 :: rest)).
Proof.
  intros L0 L1 L2. vec3 p0 L0. vec3 p1 L1. vec3 p2 L2.
  match goal with
  | |- context [generic.genPlaneData A ([?a0; ?a1; ?a2] :: [?b0; ?b1; ?b2]
                                        :: [?c0; ?c1; ?c2] :: _)] =>
      destruct (genPlaneData_steps A a0 a1 a2 b0 b1 b2 c0 c1 c2 rest)
        as (E1 & E2 & E3 & E4 & E5 & E6)
  end.
  do 6 eexists.
  split; [exact E1 |]. split; [exact E2 |]. split; [exact E3 |].
  split; [exact E4 |]. split; [reflexivity |]. split; [exact E5 |].
  split; [reflexivity |].
  rewrite E6. split; [reflexivity |].
  intros [e He]. discriminate He.
Qed.

Lemma genPlaneData_returns_equation_witness :
  ~ raises (genPlaneData [[0; 0; 0]; [1; 0; 0]; [num 2; 0; 0]; [0; 1; 0]]).
Proof.
  destruct (genPlaneData_returns_equation
              exact [0; 0; 0] [1; 0; 0] [num 2; 0; 0] [[0; 1; 0]]
              eq_refl eq_refl eq_refl)
    as (v1 & v2 & n & nn & af & c & _ & _ & _ & _ & _ & _ & _ & _ & N).
  exact N.
Defined.











(** ** Examples in double precision *)

(** Three points on one line whose differences are rounded: (-1,0,0),
    (-(2^53+2),1,0) and (-(3*2^53+4),3,0).  The normal that genPlaneData
    returns is (0,0,4). *)
Lemma genPlaneData_float64_colinear :
  generic.genPlaneData
    float64 [[-1; 0; 0]; [-9007199254740994; 1; 0]; [-27021597764222980; 3; 0]]%float
  = Ok [0; 0; 4; -0]%float.
Proof. vm_compute. reflexivity. Qed.

(** The points (0,0,0), (1,0,0), (2,0,0): the normal is zero, d is -0.0. *)
Lemma genPlaneData_float64_zero_normal :
  generic.genPlaneData float64 [[0; 0; 0]; [1; 0; 0]; [2; 0; 0]]%float
  = Ok [0; 0; 0; -0]%float.
Proof. vm_compute. reflexivity. Qed.

(** Orthogonal directions of length 2^-700: the products in np.cross
    underflow to zero, the affine matrix has a zero column and
    np.linalg.inv raises, although the basis is invertible in exact
    arithmetic. *)
Lemma genTransData_float64_underflow :
  let xDir := [0x1p-700; 0; 0]%float in
  let yDir := [0; 0x1p-700; 0]%float in
  generic.cross float64 xDir yDir = Ok [0; 0; 0]%float
  /\ generic.genTransData float64 [] [0; 0; 0]%float xDir yDir = Raise LinAlgError.
Proof. split; vm_compute; reflexivity. Qed.

(** Equal directions of length about 2^705, (49 * 2^700, 2^700, 2^700)
    twice: the products in np.cross overflow, the cross product is
    (nan, nan, nan), no pivot of the elimination is exactly zero and
    genTransData returns a transform, all of whose entries are nan. *)
Lemma genTransData_float64_overflow :
  let dir := [0x1.88p705; 0x1p700; 0x1p700]%float in
  exists T invT viewBasis,
    generic.genTransData float64 [] [0; 0; 0]%float dir dir = Ok (T, invT, viewBasis)
    /\ length T = 4%nat
    /\ forallb (forallb PrimFloat.is_nan) T = true.
Proof. cbv zeta. do 3 eexists. repeat split; vm_compute; reflexivity. Qed.

(** X16: in double precision, on the points (0,0,0), (1,0,0), (0,1,0) with
    anchor (0,0,0) and directions (1,0,0), (0,1,0), genPlaneData returns
    (0,0,1,-0.0), genTransData returns the identity for T and for invT, and
    T sends the three points to (0,0), (1,0), (0,1) in their first two
    entries. *)
Theorem float64_concrete_scenario :
  let points := [[0; 0; 0]; [1; 0; 0]; [0; 1; 0]]%float in
  let T := generic.identity float64 4 in
  generic.genPlaneData float64 points = Ok [0; 0; 1; -0]%float
  /\ generic.genTransData float64 points [0; 0; 0]%float [1; 0; 0]%float [0; 1; 0]%float
     = Ok (T, generic.identity float64 4, generic.identity float64 3)
  /\ (hp <- generic.affineVec float64 [0; 0; 0]%float ;; generic.matvec float64 T hp)
     = Ok [0; 0; 0; 1]%float
  /\ (hp <- generic.affineVec float64 [1; 0; 0]%float ;; generic.matvec float64 T hp)
     = Ok [1; 0; 0; 1]%float
  /\ (hp <- generic.affineVec float64 [0; 1; 0]%float ;; generic.matvec float64 T hp)
     = Ok [0; 1; 0; 1]%float.
Proof. cbv zeta. repeat split; vm_compute; reflexivity. Qed.

(** X17: affineMat adds [mat] to a block of zeros with numpy's
    broadcasting: a matrix of three rows of one entry fills each row of
    the 3x3 block with that entry, and no error is raised. *)
Theorem affineMat_broadcasts_column (A : arithmetic) (m0 m1 m2 t0 t1 t2 : number A) :
  let put := plus A (zero A) in
  generic.affineMat A [[m0]; [m1]; [m2]] [t0; t1; t2]
  = Ok [[put m0; put m0; put m0; put t0];
        [put m1; put m1; put m1; put t1];
        [put m2; put m2; put m2; put t2];
        [zero A; zero A; zero A; one A]].
Proof. reflexivity. Qed.

(* ===================================================================== *)
(** * isColinear *)

(** C10: for every pair of 3-component vectors, isColinear raises (the
    comparison of the cross product with np.zeros(3) is an array of three
    booleans, which has no truth value) and returns neither True nor
    False. *)
Theorem isColinear_raises (vec1 vec2 : vector) :
  length vec1 = 3%nat -> length vec2 = 3%nat ->
  isColinear vec1 vec2 = Raise ValueError
  /\ forall b, isColinear vec1 vec2 <> Ok b.
Proof.
  intros L1 L2. vec3 vec1 L1. vec3 vec2 L2.
  assert (E : isColinear [q; q0; q1] [q2; q3; q4] = Raise ValueError)
    by reflexivity.
  split; [exact E |]. intros b Hb. rewrite E in Hb. discriminate Hb.
Qed.

Lemma isColinear_raises_witness :
  isColinear [1; 0; 0] [num 2; 0; 0] = Raise ValueError
  /\ forall b, isColinear [1; 0; 0] [num 2; 0; 0] <> Ok b.
Proof.
  apply (isColinear_raises [1; 0; 0] [num 2; 0; 0]); reflexivity.
Defined.

(* ===================================================================== *)
(** * parseFoamFile *)

(** The test on the comment marker has an empty body and the tests on the
    number of tokens follow it in every case: the marker changes nothing. *)
Lemma parse_line_comment_count (output : list (list Qc)) (line : string) :
  startswith "//" line = true ->
  length (re.findall number_re line) = 1%nat ->
  parse_line (output, false) line = Ok (output, true).
Proof.
  intros _ H. unfold parse_line. rewrite H. reflexivity.
Qed.

Lemma parse_line_comment_row (output : list (list Qc)) (line : string) (row : list Qc) :
  startswith "//" line = true ->
  floats (re.findall number_re line) = Ok row ->
  row <> [] ->
  parse_line (output, true) line = Ok (output ++ [row], true)%list.
Proof.
  intros _ H Hr. unfold parse_line.
  destruct (re.findall number_re line) as [|t ts] eqn:E.
  - cbn in H. injection H as <-. contradiction.
  - cbn [negb andb length Nat.ltb Nat.leb]. rewrite H. reflexivity.
Qed.

(** C4 (the code at two inputs): after the count line, the comment line
    "// 1 2 3" becomes the first data row; before it, the comment line
    "// 7" is taken for the count line, so that the rows after it are
    parsed. *)
Theorem parseFoamFile_comment_not_skipped :
  parseFoamFile (single_file "pts" comment_after_count) "pts"
  = Ok [[num 1; num 2; num 3]; [num 4; num 5; num 6]]
  /\ parseFoamFile (single_file "pts" comment_before_count) "pts"
     = Ok [[num 1; num 2; num 3]; [num 4; num 5; num 6]].
Proof. qc_closed. Qed.

(* ===================================================================== *)
(** * Running a method *)

(** Unfold the plumbing of the method monad, and read members back from
    the object built so far. *)
Ltac run :=
  cbv [establish for_range bind ret Monad_method Monad_result lift assign getattr getflag print
       self.set_varsFile self.set_pointsFile self.set_facesFile self.set_vars
       self.set_varRank self.set_points self.set_xys self.set_faces self.set_plDef
       self.set_viewAnchor self.set_viewBasis self.set_affMat self.set_invAffMat];
  cbn [self.storeMesh self.varsFile self.pointsFile self.facesFile self.vars
       self.varRank self.points self.xys self.faces self.plDef self.viewAnchor
       self.viewBasis self.affMat self.invAffMat self_after printed value].

Ltac run_in H :=
  cbv [establish for_range bind ret Monad_method Monad_result lift assign getattr getflag print
       self.set_varsFile self.set_pointsFile self.set_facesFile self.set_vars
       self.set_varRank self.set_points self.set_xys self.set_faces self.set_plDef
       self.set_viewAnchor self.set_viewBasis self.set_affMat self.set_invAffMat] in H;
  cbn [self.storeMesh self.varsFile self.pointsFile self.facesFile self.vars
       self.varRank self.points self.xys self.faces self.plDef self.viewAnchor
       self.viewBasis self.affMat self.invAffMat self_after printed value] in H.

(** Follow the branch that the known outcomes of the calls select. *)
Ltac exec :=
  run;
  repeat (match goal with
          | H : ?x = _ |- context [match ?x with _ => _ end] => rewrite H
          end; run).

(** Case analysis on the call whose outcome the goal is waiting for. *)
Ltac case_call :=
  match goal with
  | |- context [match ?x with _ => _ end] =>
      lazymatch x with
      | context [match _ with _ => _ end] => fail
      | for_in _ _ _ => fail
      | _ => destruct x eqn:?
      end
  end.

(** Both sides run the same calls: compare them branch by branch. *)
Ltac same_branches :=
  run;
  repeat (case_call; run);
  try reflexivity;
  match goal with
  | |- context [for_in ?l project_point ?s1] =>
      destruct (for_in l project_point s1) as [? ? ?]; reflexivity
  end.

Lemma constructFromArray_unfold
      (varsArray pointsArray facesArray : table)
      (viewAnchor xViewBasis yViewBasis : vector) (s : TriSurface) :
  let s0 := self.set_vars (Some varsArray)
              (after_sources EmptyString EmptyString EmptyString s) in
  let o := establish (Ok pointsArray) (Ok facesArray)
                     viewAnchor xViewBasis yViewBasis s0 in
  constructFromArray varsArray pointsArray facesArray
                     viewAnchor xViewBasis yViewBasis s
  = mkOutcome (self_after o)
              (guard_output varsArray pointsArray ++ printed o)%list
              (value o).
Proof.
  intros s0 o. subst o s0.
  unfold constructFromArray, guard_output, after_sources, np_copy.
  destruct (negb _); same_branches.
Qed.

Lemma readFromFoamFile_unfold
      (fs : filesystem) (varsFile pointsFile facesFile : string)
      (viewAnchor xViewBasis yViewBasis : vector) (s : TriSurface) :
  let s0 := after_sources varsFile pointsFile facesFile s in
  readFromFoamFile fs varsFile pointsFile facesFile
                   viewAnchor xViewBasis yViewBasis s
  = match parseFoamFile fs varsFile with
    | Raise e => mkOutcome s0 [] (Raise e)
    | Ok vars =>
        establish (parseFoamFile fs pointsFile)
                  (t <- parseFoamFile fs facesFile ;; face_columns t)
                  viewAnchor xViewBasis yViewBasis
                  (self.set_vars (Some vars) s0)
    end.
Proof.
  intros s0. subst s0.
  unfold readFromFoamFile, after_sources.
  destruct (parseFoamFile fs varsFile) as [vars | e]; same_branches.
Qed.

Lemma same_but_xys_refl (s : TriSurface) : same_but_xys s s.
Proof. split; auto. Qed.

Lemma same_but_xys_trans (s1 s2 s3 : TriSurface) :
  same_but_xys s1 s2 -> same_but_xys s2 s3 -> same_but_xys s1 s3.
Proof. intros [E1 N1] [E2 N2]. split; [congruence | auto]. Qed.

Lemma project_point_frame (i : nat) (s : TriSurface) :
  same_but_xys s (self_after (project_point i s))
  /\ printed (project_point i s) = [].
Proof.
  unfold project_point. run.
  repeat (case_call; run);
    try (split; [apply same_but_xys_refl | reflexivity]).
  split; [| reflexivity].
  split; [destruct s; cbn in *; subst; reflexivity | cbn; discriminate].
Qed.

Lemma for_in_project_point_frame (l : list nat) (s : TriSurface) :
  same_but_xys s (self_after (for_in l project_point s))
  /\ printed (for_in l project_point s) = [].
Proof.
  revert s. induction l as [| i l IH]; intros s.
  - split; [apply same_but_xys_refl | reflexivity].
  - cbn [for_in]. cbv [bind Monad_method].
    destruct (project_point_frame i s) as [F P].
    destruct (project_point i s) as [s1 p1 [[] | e]]; cbn in F, P; subst p1.
    + specialize (IH s1). destruct (for_in l project_point s1) as [s2 p2 r2].
      cbn in IH |- *. destruct IH as [F2 ->].
      split; [eapply same_but_xys_trans; eassumption | reflexivity].
    + split; [exact F | reflexivity].
Qed.

(** Members other than xys, read through the frame. *)
Lemma same_but_xys_members (s s' : TriSurface) :
  same_but_xys s s' ->
  self.storeMesh s' = self.storeMesh s
  /\ self.vars s' = self.vars s /\ self.varRank s' = self.varRank s
  /\ self.points s' = self.points s /\ self.faces s' = self.faces s
  /\ self.plDef s' = self.plDef s /\ self.viewAnchor s' = self.viewAnchor s
  /\ self.viewBasis s' = self.viewBasis s /\ self.affMat s' = self.affMat s
  /\ self.invAffMat s' = self.invAffMat s.
Proof.
  intros [E _].
  repeat split.
  - exact (f_equal self.storeMesh E).
  - exact (f_equal self.vars E).
  - exact (f_equal self.varRank E).
  - exact (f_equal self.points E).
  - exact (f_equal self.faces E).
  - exact (f_equal self.plDef E).
  - exact (f_equal self.viewAnchor E).
  - exact (f_equal self.viewBasis E).
  - exact (f_equal self.affMat E).
  - exact (f_equal self.invAffMat E).
Qed.

(** ** What a construction call does after storing [self.vars] *)

(** A call that returns has gone through every step. *)
Lemma establish_returns (load_points load_faces : result table)
      (viewAnchor xViewBasis yViewBasis : vector) (s : TriSurface) (v : table) :
  self.vars s = Some v ->
  value (establish load_points load_faces viewAnchor xViewBasis yViewBasis s)
  = Ok tt ->
  exists row pts plDef T invT viewBasis s',
    s' = self_after (establish load_points load_faces
                               viewAnchor xViewBasis yViewBasis s)
    /\ item v 1 = Ok row /\ load_points = Ok pts
    /\ genPlaneData pts = Ok plDef
    /\ genTransData pts viewAnchor xViewBasis yViewBasis = Ok (T, invT, viewBasis)
    /\ self.vars s' = Some v /\ self.varRank s' = length row
    /\ self.plDef s' = Some plDef /\ self.viewAnchor s' = Some viewAnchor
    /\ self.affMat s' = Some T /\ self.invAffMat s' = Some invT
    /\ self.viewBasis s' = Some viewBasis
    /\ (self.storeMesh s = true ->
        exists fcs, load_faces = Ok fcs /\ self.points s' = Some pts
                    /\ self.faces s' = Some fcs /\ self.xys s' <> None)
    /\ (self.storeMesh s = false ->
        self.points s' = self.points s /\ self.faces s' = self.faces s
        /\ self.xys s' = self.xys s).
Proof.
  intros Hv. run. rewrite Hv. run.
  destruct (item v 1) as [row | e] eqn:Hrow; run; [| discriminate].
  destruct (self.storeMesh s) eqn:Hm; run.
  - destruct load_points as [pts | e]; run; [| discriminate].
    destruct load_faces as [fcs | e]; run; [| discriminate].
    destruct (genPlaneData pts) as [plDef | e] eqn:Hpl; run; [| discriminate].
    destruct (genTransData pts viewAnchor xViewBasis yViewBasis)
      as [[[T invT] viewBasis] | e] eqn:Htr; run; [| discriminate].
    match goal with
    | |- context [for_in ?l project_point ?s1] =>
        destruct (for_in_project_point_frame l s1) as [F _];
        destruct (for_in l project_point s1) as [s2 p2 r2]
    end.
    cbn [self_after value] in *. intros ->.
    pose proof (same_but_xys_members _ _ F) as M. cbn in M.
    destruct M as (_ & Mv & Mr & Mp & Mf & Mpl & Ma & Mb & Mt & Mi).
    destruct F as [_ X].
    exists row, pts, plDef, T, invT, viewBasis, s2.
    repeat (split; [solve [reflexivity | assumption] |]).
    split; [| discriminate].
    intros _. exists fcs. repeat split; try assumption.
    apply X. cbn. discriminate.
  - destruct load_points as [pts | e]; run; [| discriminate].
    destruct (genPlaneData pts) as [plDef | e] eqn:Hpl; run; [| discriminate].
    destruct (genTransData pts viewAnchor xViewBasis yViewBasis)
      as [[[T invT] viewBasis] | e] eqn:Htr; run; [| discriminate].
    intros _. eexists row, pts, plDef, T, invT, viewBasis, _.
    repeat (split; [solve [reflexivity | assumption] |]).
    split; [discriminate | intros _; repeat split].
Qed.

(** A singular view basis is met after the plane data and the anchor have
    been stored, and before the transforms are. *)
Lemma establish_raises_at_genTransData (load_points load_faces : result table)
      (viewAnchor xViewBasis yViewBasis : vector) (s : TriSurface)
      (v pts : table) (row plDef : vector) (e : exn) :
  self.vars s = Some v -> item v 1 = Ok row ->
  load_points = Ok pts ->
  (self.storeMesh s = true -> exists fcs, load_faces = Ok fcs) ->
  genPlaneData pts = Ok plDef ->
  genTransData pts viewAnchor xViewBasis yViewBasis = Raise e ->
  let o := establish load_points load_faces viewAnchor xViewBasis yViewBasis s in
  value o = Raise e
  /\ self.vars (self_after o) = Some v
  /\ self.varRank (self_after o) = length row
  /\ self.plDef (self_after o) = Some plDef
  /\ self.viewAnchor (self_after o) = Some viewAnchor
  /\ (self.storeMesh s = true ->
      self.points (self_after o) = Some pts
      /\ self.faces (self_after o) = load_faces_value load_faces)
  /\ self.affMat (self_after o) = self.affMat s
  /\ self.invAffMat (self_after o) = self.invAffMat s
  /\ self.viewBasis (self_after o) = self.viewBasis s
  /\ self.xys (self_after o) = self.xys s.
Proof.
  intros Hv Hr Hp Hf Hpl Ht o. subst o.
  destruct (self.storeMesh s) eqn:Hm.
  - destruct Hf as [fcs Hf]; [reflexivity |].
    subst load_faces. exec. repeat split; auto.
  - exec. repeat split; auto; discriminate.
Qed.

Lemma establish_keeps_vars (load_points load_faces : result table)
      (viewAnchor xViewBasis yViewBasis : vector) (s : TriSurface) :
  self.vars (self_after (establish load_points load_faces
                                   viewAnchor xViewBasis yViewBasis s))
  = self.vars s.
Proof.
  run.
  repeat (case_call; run); try congruence.
  match goal with
  | |- context [for_in ?l project_point ?s1] =>
      destruct (for_in_project_point_frame l s1) as [F _];
      destruct (for_in l project_point s1) as [s2 p2 r2]
  end.
  apply same_but_xys_members in F. cbn in F |- *.
  destruct F as (_ & Mv & _). congruence.
Qed.

(** Without a row of index 1 the rank cannot be read. *)
Lemma establish_raises_at_varRank (load_points load_faces : result table)
      (viewAnchor xViewBasis yViewBasis : vector) (s : TriSurface) (v : table) :
  self.vars s = Some v -> (length v < 2)%nat ->
  establish load_points load_faces viewAnchor xViewBasis yViewBasis s
  = mkOutcome s [] (Raise IndexError).
Proof.
  intros Hv Hl.
  assert (E : item v 1 = Raise IndexError).
  { destruct v as [| r0 [| r1 rest]]; [reflexivity | reflexivity |].
    cbn in Hl. lia. }
  exec. reflexivity.
Qed.

(* ===================================================================== *)
(** * The construction methods *)

(** C1 (the code at an input with two field values and three points): the
    guard prints its message, [exit] is named and not called, and the
    construction goes on to its end without raising: every member is
    established. *)
Theorem constructFromArray_mismatch_completes :
  let varsArray := [[num 5]; [num 6]] in
  let o := constructFromArray varsArray triangle [[0; 1; num 2]]
                              origin e1 e2 (init true) in
  length varsArray <> length triangle
  /\ value o = Ok tt
  /\ printed o = [dimension_message]
  /\ self.vars (self_after o) = Some varsArray
  /\ self.varRank (self_after o) = 1%nat
  /\ self.points (self_after o) = Some triangle
  /\ self.plDef (self_after o) = Some [0; 0; 1; 0]
  /\ self.affMat (self_after o) = Some (np.identity 4)
  /\ self.invAffMat (self_after o) = Some (np.identity 4)
  /\ self.xys (self_after o) = Some [[0; 0]; [1; 0]; [0; 1]].
Proof.
  cbv zeta. split; [discriminate |]. qc_closed.
Qed.

(** The guard of constructFromArray changes neither the outcome nor the
    object, whatever the lengths: it only prints. *)
Lemma constructFromArray_guard_only_prints
      (varsArray pointsArray facesArray : table)
      (viewAnchor xViewBasis yViewBasis : vector) (s : TriSurface) :
  let s0 := self.set_vars (Some varsArray)
              (after_sources EmptyString EmptyString EmptyString s) in
  let o := constructFromArray varsArray pointsArray facesArray
                              viewAnchor xViewBasis yViewBasis s in
  let o' := establish (Ok pointsArray) (Ok facesArray)
                      viewAnchor xViewBasis yViewBasis s0 in
  value o = value o' /\ self_after o = self_after o'.
Proof.
  cbv zeta. rewrite constructFromArray_unfold. split; reflexivity.
Qed.

(** readFromVTK at one input: it returns, and the object is as it was. *)
Lemma readFromVTK_returns_example :
  let o := readFromVTK "plane.vtk" origin e1 e2 (init true) in
  ~ raises (value o) /\ value o = Ok tt /\ self_after o = init true.
Proof.
  cbv zeta. split; [| split; reflexivity].
  intros [e He]. discriminate He.
Qed.

(** C5 (as the code has it): every invocation of readFromVTK returns
    without raising anything, prints nothing and leaves the object
    unmodified. *)
Theorem readFromVTK_does_nothing
        (vtkFile : string) (viewAnchor xViewBasis yViewBasis : vector)
        (s : TriSurface) :
  readFromVTK vtkFile viewAnchor xViewBasis yViewBasis s
  = mkOutcome s [] (Ok tt).
Proof. reflexivity. Qed.

(** The same points seen from the anchor (1,0,0): the view coordinates are
    shifted by (-1,0). *)
Lemma constructFromArray_anchor_translation :
  let o := constructFromArray [[num 7]; [num 8]; [num 9]] triangle
                              [[0; 1; num 2]] e1 e1 e2 (init true) in
  value o = Ok tt
  /\ self.xys (self_after o) = Some [[- (1); 0]; [0; 0]; [- (1); 1]].
Proof. qc_closed. Qed.

(** The geometry of the concrete scenario. *)
Lemma genPlaneData_triangle : genPlaneData triangle = Ok [0; 0; 1; 0].
Proof. qc_closed. Qed.

Lemma genTransData_triangle :
  genTransData triangle origin e1 e2
  = Ok (np.identity 4, np.identity 4, np.identity 3).
Proof. qc_closed. Qed.

(** C6: for points (0,0,0),(1,0,0),(0,1,0), anchor (0,0,0), xDir (1,0,0)
    and yDir (0,1,0), construction with the mesh retained yields the plane
    equation (0,0,1,0) and the view coordinates (0,0),(1,0),(0,1) in that
    order, whatever the field values (of two samples or more) and faces. *)
Theorem constructFromArray_concrete_scenario
        (varsArray facesArray : table) (s : TriSurface) :
  (2 <= length varsArray)%nat ->
  self.storeMesh s = true ->
  let o := constructFromArray varsArray triangle facesArray origin e1 e2 s in
  value o = Ok tt
  /\ self.plDef (self_after o) = Some [0; 0; 1; 0]
  /\ self.xys (self_after o) = Some [[0; 0]; [1; 0]; [0; 1]].
Proof.
  intros Hl Hm o. subst o.
  rewrite constructFromArray_unfold. cbv zeta.
  destruct varsArray as [| r0 [| r1 rest]]; [cbn in Hl; lia | cbn in Hl; lia |].
  assert (Hr : item (r0 :: r1 :: rest) 1 = Ok r1) by reflexivity.
  pose proof genPlaneData_triangle as Hpl.
  pose proof genTransData_triangle as Htr.
  cbn [self_after value].
  unfold after_sources. exec.
  match goal with
  | |- context [for_in ?l project_point ?s1] =>
      let o := fresh "o" in
      let E := fresh "E" in
      remember (for_in l project_point s1) as o eqn:E;
      vm_compute in E; subst o
  end.
  cbn [self_after value self.plDef self.xys].
  qc_closed.
Qed.

Lemma constructFromArray_concrete_scenario_witness :
  let o := constructFromArray [[num 7]; [num 8]; [num 9]] triangle
                              [[0; 1; num 2]] origin e1 e2 (init true) in
  value o = Ok tt
  /\ self.plDef (self_after o) = Some [0; 0; 1; 0]
  /\ self.xys (self_after o) = Some [[0; 0]; [1; 0]; [0; 1]].
Proof.
  apply (constructFromArray_concrete_scenario
           [[num 7]; [num 8]; [num 9]] [[0; 1; num 2]] (init true)).
  - cbn. lia.
  - reflexivity.
Defined.

(** ** The loop over the points *)

Lemma length_set_item {A} (a : list A) (i : nat) (x : A) :
  length (set_item a i x) = length a.
Proof.
  revert i. induction a as [| h t IH]; intros [| i]; cbn; auto.
Qed.

Lemma nth_error_set_item_same {A} (a : list A) (i : nat) (x : A) :
  (i < length a)%nat -> nth_error (set_item a i x) i = Some x.
Proof.
  revert i. induction a as [| h t IH]; intros [| i] L; cbn in *; try lia; auto.
  apply IH. lia.
Qed.

Lemma nth_error_set_item_other {A} (a : list A) (i j : nat) (x : A) :
  i <> j -> nth_error (set_item a i x) j = nth_error a j.
Proof.
  revert i j. induction a as [| h t IH]; intros [| i] [| j] N; cbn; auto;
    try contradiction.
Qed.

Lemma set_slice_whole {A} (row v r : list A) :
  set_slice 0 (length row) row v = Ok r -> r = v.
Proof.
  unfold set_slice, slice. rewrite Nat.sub_0_r. cbn [skipn firstn app Nat.add].
  rewrite firstn_all.
  destruct (Nat.eqb_spec (length v) (length row)) as [E | E]; [| discriminate].
  intros H. injection H as <-. rewrite E, skipn_all, app_nil_r. reflexivity.
Qed.

Lemma project_point_returns (i : nat) (s : TriSurface) :
  value (project_point i s) = Ok tt ->
  exists pts T X p r,
    self.points s = Some pts /\ self.affMat s = Some T /\ self.xys s = Some X
    /\ nth_error pts i = Some p /\ project T p = Ok r /\ (i < length X)%nat
    /\ self.xys (self_after (project_point i s)) = Some (set_item X i r).
Proof.
  unfold project_point, item. run.
  destruct (self.points s) as [pts |]; run; [| discriminate].
  destruct (nth_error pts i) as [p |] eqn:Hp; run; [| discriminate].
  destruct (self.affMat s) as [T |]; run; [| discriminate].
  destruct (affineVec p) as [hp |] eqn:Hhp; run; [| discriminate].
  destruct (np.reshape_4_1 hp); run; [| discriminate].
  destruct (np.matmul T _); run; [| discriminate].
  destruct (np.matvec T hp) as [v |] eqn:Hv; run; [| discriminate].
  destruct (self.xys s) as [X |]; run; [| discriminate].
  destruct (nth_error X i) as [row |] eqn:Hrow; run; [| discriminate].
  destruct (set_slice 0 (length row) row _) as [r |] eqn:Hr; run; [| discriminate].
  intros _. apply set_slice_whole in Hr. subst r.
  exists pts, T, X, p, (slice 0 2 (slice 0 3 v)).
  repeat split; try reflexivity; try assumption.
  - unfold project. rewrite Hhp. cbn [bind Monad_result]. rewrite Hv. reflexivity.
  - apply nth_error_Some. congruence.
Qed.

Lemma for_in_project_point_returns (l : list nat) :
  NoDup l ->
  forall (s : TriSurface) (pts T X : table),
    self.points s = Some pts -> self.affMat s = Some T -> self.xys s = Some X ->
    value (for_in l project_point s) = Ok tt ->
    exists X',
      self.xys (self_after (for_in l project_point s)) = Some X'
      /\ length X' = length X
      /\ (forall i, In i l ->
            exists p r, nth_error pts i = Some p /\ project T p = Ok r
                        /\ nth_error X' i = Some r)
      /\ (forall i, ~ In i l -> nth_error X' i = nth_error X i).
Proof.
  induction 1 as [| i l Hi Hl IH]; intros s pts T X Hp Ht Hx Hv.
  - exists X. cbn. repeat split; auto. intros i [].
  - cbn [for_in] in *. cbv [bind Monad_method] in *.
    pose proof (project_point_returns i s) as R.
    destruct (project_point_frame i s) as [F _].
    destruct (project_point i s) as [s1 p1 [[] | e]]; cbn [value self_after] in *;
      [| discriminate Hv].
    destruct (R eq_refl) as (pts' & T' & X0 & p & r & Ep & Et & Ex & Hpi & Hr & Li & Ex1).
    rewrite Hp in Ep. rewrite Ht in Et. rewrite Hx in Ex.
    injection Ep as <-. injection Et as <-. injection Ex as <-.
    apply same_but_xys_members in F.
    destruct F as (_ & _ & _ & Fp & _ & _ & _ & _ & Fa & _).
    rewrite Hp in Fp. rewrite Ht in Fa.
    specialize (IH s1 pts T (set_item X i r) Fp Fa Ex1).
    destruct (for_in l project_point s1) as [s2 p2 r2]; cbn [value self_after] in *.
    destruct (IH Hv) as (X' & EX' & LX' & In' & Out').
    exists X'. split; [exact EX' |]. split; [rewrite LX'; apply length_set_item |].
    split.
    + intros j [<- | Hj].
      * exists p, r. repeat split; auto.
        rewrite (Out' i Hi). apply nth_error_set_item_same. exact Li.
      * apply In'. exact Hj.
    + intros j Hj. rewrite Out' by (intros C; apply Hj; right; exact C).
      apply nth_error_set_item_other. intros ->. apply Hj. left. reflexivity.
Qed.

Lemma length_zeros2 (r c : nat) : length (np.zeros2 r c) = r.
Proof. apply repeat_length. Qed.

Lemma establish_projects (load_points load_faces : result table)
      (viewAnchor xViewBasis yViewBasis : vector) (s : TriSurface) :
  self.storeMesh s = true ->
  let o := establish load_points load_faces viewAnchor xViewBasis yViewBasis s in
  value o = Ok tt ->
  exists pts T X,
    self.points (self_after o) = Some pts
    /\ self.affMat (self_after o) = Some T
    /\ self.xys (self_after o) = Some X
    /\ length X = length pts
    /\ forall i p, nth_error pts i = Some p ->
         exists r, project T p = Ok r /\ nth_error X i = Some r.
Proof.
  intros Hm o. subst o. run.
  destruct (self.vars s) as [v |]; run; [| discriminate].
  destruct (item v 1) as [row | e]; run; [| discriminate].
  rewrite Hm. run.
  destruct load_points as [pts | e]; run; [| discriminate].
  destruct load_faces as [fcs | e]; run; [| discriminate].
  destruct (genPlaneData pts) as [plDef | e]; run; [| discriminate].
  destruct (genTransData pts viewAnchor xViewBasis yViewBasis)
    as [[[T invT] viewBasis] | e]; run; [| discriminate].
  match goal with
  | |- context [for_in ?l project_point ?s1] =>
      pose proof (for_in_project_point_returns l (seq_NoDup _ _) s1 pts T
                    (np.zeros2 (length pts) 2) eq_refl eq_refl eq_refl) as L;
      destruct (for_in_project_point_frame l s1) as [F _];
      destruct (for_in l project_point s1) as [s2 p2 r2]
  end.
  cbn [self_after value] in *. intros Hv.
  destruct (L Hv) as (X & EX & LX & Hin & _).
  apply same_but_xys_members in F. cbn in F.
  destruct F as (_ & _ & _ & Fp & _ & _ & _ & _ & Fa & _).
  exists pts, T, X. repeat split; try assumption.
  - rewrite LX. apply length_zeros2.
  - intros i p Hi.
    destruct (Hin i) as (p' & r & Hp' & Hr & Hx).
    + apply in_seq. rewrite length_zeros2.
      assert (i < length pts)%nat by (apply nth_error_Some; congruence). lia.
    + rewrite Hi in Hp'. injection Hp' as <-. exists r. split; assumption.
Qed.

(** ** What a failed call leaves behind *)

(** A singular view basis on a fresh object: the call raises, and the
    plane data, the anchor and the mesh are on the object while the
    transforms and the view coordinates are not. *)
Lemma constructFromArray_singular_basis_example :
  let o := constructFromArray [[num 7]; [num 8]; [num 9]] triangle
                              [[0; 1; num 2]] origin e1 [num 2; 0; 0]
                              (init true) in
  value o = Raise LinAlgError
  /\ self.vars (self_after o) = Some [[num 7]; [num 8]; [num 9]]
  /\ self.points (self_after o) = Some triangle
  /\ self.plDef (self_after o) = Some [0; 0; 1; 0]
  /\ self.viewAnchor (self_after o) = Some origin
  /\ self.affMat (self_after o) = None
  /\ self.invAffMat (self_after o) = None
  /\ self.xys (self_after o) = None
  /\ self_after o <> init true
  /\ ~ fully_established (self_after o).
Proof.
  cbv zeta.
  repeat (split; [solve [qc_closed] |]).
  split.
  - intros E. apply (f_equal self.plDef) in E. vm_compute in E. discriminate E.
  - intros [(_ & _ & _ & _ & A & _) _]. apply A. reflexivity.
Qed.

(** A call that returns has given each member its value. *)
Lemma establish_established_from (load_points load_faces : result table)
      (viewAnchor xViewBasis yViewBasis : vector) (s : TriSurface) (v : table) :
  self.vars s = Some v ->
  let o := establish load_points load_faces viewAnchor xViewBasis yViewBasis s in
  value o = Ok tt ->
  exists pts, load_points = Ok pts
    /\ established_from s o v pts load_faces viewAnchor xViewBasis yViewBasis.
Proof.
  intros Hv o Ho. subst o.
  destruct (establish_returns _ _ _ _ _ _ _ Hv Ho)
    as (row & pts & pl & T & invT & vb & s' & -> & Hr & Hp & Hpl & Ht
        & E1 & Ek & E2 & E3 & E4 & E5 & E6 & M & _).
  exists pts. split; [exact Hp |].
  exists row, pl, T, invT, vb.
  repeat (split; [assumption |]).
  intros Hm. destruct (M Hm) as (fcs & Hf & P & F & _).
  destruct (establish_projects _ _ _ _ _ _ Hm Ho)
    as (pts' & T' & X & P' & A' & EX & LX & Hi).
  rewrite P in P'. injection P' as <-. rewrite E4 in A'. injection A' as <-.
  exists fcs, X. repeat split; assumption.
Qed.

Lemma establish_left_at_singular_basis (load_points load_faces : result table)
      (viewAnchor xViewBasis yViewBasis : vector) (s s0 : TriSurface)
      (v pts fcs : table) (row plDef : vector) (e : exn) :
  self.vars s0 = Some v ->
  self.storeMesh s0 = self.storeMesh s ->
  self.affMat s0 = self.affMat s -> self.invAffMat s0 = self.invAffMat s ->
  self.viewBasis s0 = self.viewBasis s -> self.xys s0 = self.xys s ->
  item v 1 = Ok row -> load_points = Ok pts ->
  (self.storeMesh s = true -> load_faces = Ok fcs) ->
  genPlaneData pts = Ok plDef ->
  genTransData pts viewAnchor xViewBasis yViewBasis = Raise e ->
  left_at_singular_basis
    s (establish load_points load_faces viewAnchor xViewBasis yViewBasis s0)
    v pts fcs row plDef viewAnchor e.
Proof.
  intros Hv Hm Ha Hi Hb Hx Hr Hp Hf Hpl Ht.
  rewrite <- Hm in Hf.
  destruct (establish_raises_at_genTransData
              load_points load_faces viewAnchor xViewBasis yViewBasis
              s0 v pts row plDef e Hv Hr Hp
              (fun M => ex_intro _ fcs (Hf M)) Hpl Ht)
    as (E0 & E1 & E2 & E3 & E4 & E5 & E6 & E7 & E8 & E9).
  unfold left_at_singular_basis.
  rewrite E0, E1, E2, E3, E4, E6, E7, E8, E9.
  repeat (split; [solve [reflexivity | assumption] |]).
  split; [| auto].
  rewrite <- Hm. intros M. destruct (E5 M) as [P F].
  split; [exact P |]. rewrite F, (Hf M). reflexivity.
Qed.

(** C8 (as the code has it): a construction call that returns has
    established the members together, each with the value computed from the
    loaded tables (points, faces and one row of xys per point when the mesh
    is retained).  A call that raises is not rolled back.  vars is assigned
    after every call of constructFromArray, and after every call of
    readFromFoamFile whose vars file parses; when the vars file does not
    parse only the three source paths have changed.  When the failure is
    the singular view basis, varRank, plDef and viewAnchor (and points and
    faces with the mesh retained) hold their new values, while viewBasis,
    affMat, invAffMat and xys keep the values they had before the call. *)
Theorem construction_leaves_assigned_members
        (fs : filesystem) (varsFile pointsFile facesFile : string)
        (varsArray pointsArray facesArray : table)
        (viewAnchor xViewBasis yViewBasis : vector) (s : TriSurface) :
  let oA := constructFromArray varsArray pointsArray facesArray
                               viewAnchor xViewBasis yViewBasis s in
  let oF := readFromFoamFile fs varsFile pointsFile facesFile
                             viewAnchor xViewBasis yViewBasis s in
  let load_faces := (t <- parseFoamFile fs facesFile ;; face_columns t) in
  (value oA = Ok tt ->
   established_from s oA varsArray pointsArray (Ok facesArray)
                    viewAnchor xViewBasis yViewBasis)
  /\ (value oF = Ok tt ->
      exists vars pts,
        parseFoamFile fs varsFile = Ok vars
        /\ parseFoamFile fs pointsFile = Ok pts
        /\ established_from s oF vars pts load_faces
                            viewAnchor xViewBasis yViewBasis)
  /\ self.vars (self_after oA) = Some varsArray
  /\ (forall vars, parseFoamFile fs varsFile = Ok vars ->
                   self.vars (self_after oF) = Some vars)
  /\ (forall e, parseFoamFile fs varsFile = Raise e ->
                oF = mkOutcome (after_sources varsFile pointsFile facesFile s)
                               [] (Raise e))
  /\ (forall row plDef e,
        item varsArray 1 = Ok row ->
        genPlaneData pointsArray = Ok plDef ->
        genTransData pointsArray viewAnchor xViewBasis yViewBasis = Raise e ->
        left_at_singular_basis s oA varsArray pointsArray facesArray
                               row plDef viewAnchor e
        /\ (parseFoamFile fs varsFile = Ok varsArray ->
            parseFoamFile fs pointsFile = Ok pointsArray ->
            (self.storeMesh s = true -> load_faces = Ok facesArray) ->
            left_at_singular_basis s oF varsArray pointsArray facesArray
                                   row plDef viewAnchor e)).
Proof.
  intros oA oF load_faces. subst oA oF load_faces.
  rewrite constructFromArray_unfold, readFromFoamFile_unfold.
  cbv zeta. cbn [self_after value].
  split; [| split; [| split; [| split; [| split]]]].
  - intros Ho.
    eapply establish_established_from in Ho; [| reflexivity].
    destruct Ho as (pts & Hp & E).
    injection Hp as <-. exact E.
  - destruct (parseFoamFile fs varsFile) as [vars | e]; [| discriminate].
    intros Ho.
    eapply establish_established_from in Ho; [| reflexivity].
    destruct Ho as (pts & Hp & E).
    exists vars, pts. split; [reflexivity |]. split; [exact Hp | exact E].
  - rewrite establish_keeps_vars. reflexivity.
  - intros vars H. rewrite H, establish_keeps_vars. reflexivity.
  - intros e H. rewrite H. reflexivity.
  - intros row plDef e Hr Hpl Ht. split.
    + apply establish_left_at_singular_basis; auto.
    + intros Hv Hp Hf. rewrite Hv.
      apply establish_left_at_singular_basis; auto.
Qed.

Lemma sample_vars : parseFoamFile sample_files "vars" = Ok [[num 7]; [num 8]; [num 9]].
Proof. qc_closed. Qed.
Lemma sample_points : parseFoamFile sample_files "points" = Ok triangle.
Proof. qc_closed. Qed.
Lemma sample_faces :
  (t <- parseFoamFile sample_files "faces" ;; face_columns t) = Ok [[0; 1; num 2]].
Proof. qc_closed. Qed.
Lemma sample_one_var : parseFoamFile sample_files "one_var" = Ok [[num 7]].
Proof. qc_closed. Qed.

Lemma construction_leaves_assigned_members_witness :
  let V := [[num 7]; [num 8]; [num 9]] in
  let F := [[0; 1; num 2]] in
  let y := [num 2; 0; 0] in
  left_at_singular_basis
    (init true) (constructFromArray V triangle F origin e1 y (init true))
    V triangle F [num 8] [0; 0; 1; 0] origin LinAlgError
  /\ left_at_singular_basis
       (init true)
       (readFromFoamFile sample_files "vars" "points" "faces" origin e1 y (init true))
       V triangle F [num 8] [0; 0; 1; 0] origin LinAlgError.
Proof.
  cbv zeta.
  destruct (construction_leaves_assigned_members
              sample_files "vars" "points" "faces"
              [[num 7]; [num 8]; [num 9]] triangle [[0; 1; num 2]]
              origin e1 [num 2; 0; 0] (init true))
    as (_ & _ & _ & _ & _ & L).
  assert (Ht : genTransData triangle origin e1 [num 2; 0; 0] = Raise LinAlgError)
    by qc_closed.
  destruct (L [num 8] [0; 0; 1; 0] LinAlgError eq_refl genPlaneData_triangle Ht)
    as [LA LF].
  split; [exact LA |].
  apply LF; [exact sample_vars | exact sample_points |].
  intros _. exact sample_faces.
Defined.

(** ** The rank of the field *)

(** C9: in both construction calls the rank is the length of the row of
    index 1 of the loaded vars table; with fewer than two rows the call
    fails with an IndexError, also for one single field sample. *)
Theorem varRank_read_from_row_1
        (fs : filesystem) (varsFile pointsFile facesFile : string)
        (varsArray pointsArray facesArray : table)
        (viewAnchor xViewBasis yViewBasis : vector) (s : TriSurface) :
  parseFoamFile fs varsFile = Ok varsArray ->
  let oA := constructFromArray varsArray pointsArray facesArray
                               viewAnchor xViewBasis yViewBasis s in
  let oF := readFromFoamFile fs varsFile pointsFile facesFile
                             viewAnchor xViewBasis yViewBasis s in
  ((length varsArray < 2)%nat ->
   value oA = Raise IndexError /\ value oF = Raise IndexError)
  /\ (value oA = Ok tt ->
      exists row, nth_error varsArray 1 = Some row
                  /\ self.varRank (self_after oA) = length row)
  /\ (value oF = Ok tt ->
      exists row, nth_error varsArray 1 = Some row
                  /\ self.varRank (self_after oF) = length row).
Proof.
  intros Hv oA oF. subst oA oF.
  rewrite constructFromArray_unfold, readFromFoamFile_unfold, Hv.
  cbv zeta. cbn [self_after value].
  assert (R : forall lp lf s0,
             self.vars s0 = Some varsArray ->
             value (establish lp lf viewAnchor xViewBasis yViewBasis s0) = Ok tt ->
             exists row, nth_error varsArray 1 = Some row
               /\ self.varRank
                    (self_after (establish lp lf viewAnchor xViewBasis yViewBasis s0))
                  = length row).
  { intros lp lf s0 H0 Ho.
    destruct (establish_returns _ _ _ _ _ _ _ H0 Ho)
      as (row & pts & pl & T & invT & vb & s' & -> & Hr & _ & _ & _
          & _ & Hk & _).
    exists row. split; [| exact Hk].
    unfold item in Hr. destruct (nth_error varsArray 1); [| discriminate Hr].
    injection Hr as ->. reflexivity. }
  split; [| split].
  - intros Hl.
    rewrite !(establish_raises_at_varRank _ _ _ _ _ _ varsArray)
      by (reflexivity || exact Hl).
    split; reflexivity.
  - apply R. reflexivity.
  - apply R. reflexivity.
Qed.

Lemma varRank_read_from_row_1_witness :
  value (constructFromArray [[num 7]] triangle [[0; 1; num 2]]
                            origin e1 e2 (init true)) = Raise IndexError
  /\ value (readFromFoamFile sample_files "one_var" "points" "faces"
                             origin e1 e2 (init true)) = Raise IndexError.
Proof.
  apply (varRank_read_from_row_1
           sample_files "one_var" "points" "faces"
           [[num 7]] triangle [[0; 1; num 2]] origin e1 e2 (init true)
           sample_one_var).
  cbn. lia.
Defined.

(* ===================================================================== *)
(** * Further properties of the geometry helpers, the construction
      methods and the parser *)

Lemma map2_zeros_plus (v : vector) : map2 Qcplus (np.zeros (length v)) v = v.
Proof.
  induction v as [| x v IH]; [reflexivity |].
  cbn. rewrite Qcplus_0_l. f_equal. exact IH.
Qed.

Lemma set_item_last_zeros (n : nat) (x : Qc) :
  set_item (np.zeros (n + 1)) n x = (np.zeros n ++ [x])%list.
Proof.
  induction n as [| n IH]; [reflexivity |].
  cbn. f_equal. exact IH.
Qed.

Lemma length_zeros (n : nat) : length (np.zeros n) = n.
Proof. apply repeat_length. Qed.

(** X1: for every vector, of any length, affineVec raises nothing and
    returns the vector followed by the entry 1. *)
Theorem affineVec_appends_one (vec : vector) :
  affineVec vec = Ok (vec ++ [1])%list.
Proof.
  unfold affineVec.
  rewrite length_zeros, Nat.add_sub, set_item_last_zeros.
  unfold slice. rewrite Nat.sub_0_r. cbn [skipn].
  assert (F : firstn (length vec) (np.zeros (length vec) ++ [1])
              = np.zeros (length vec)).
  { rewrite firstn_app, length_zeros, Nat.sub_diag. cbn [firstn].
    rewrite app_nil_r. apply firstn_all2. rewrite length_zeros. lia. }
  rewrite F.
  unfold np.add, np.elementwise. rewrite length_zeros, Nat.eqb_refl.
  rewrite map2_zeros_plus. cbn [bind Monad_result].
  unfold set_slice, slice. rewrite Nat.sub_0_r. cbn [skipn firstn].
  rewrite F, length_zeros, Nat.eqb_refl. cbn [Nat.add app].
  rewrite skipn_app, length_zeros, Nat.sub_diag. cbn [skipn].
  rewrite skipn_all2 by (rewrite length_zeros; lia). reflexivity.
Qed.

(** X2: for every 3x3 matrix and 3-vector, affineMat returns the 4x4 matrix
    with the matrix as upper left block, the vector as last column and
    (0,0,0,1) as last row. *)
Theorem affineMat_3x3 (m00 m01 m02 m10 m11 m12 m20 m21 m22 t0 t1 t2 : Qc) :
  affineMat [[m00; m01; m02]; [m10; m11; m12]; [m20; m21; m22]] [t0; t1; t2]
  = Ok [[m00; m01; m02; t0]; [m10; m11; m12; t1]; [m20; m21; m22; t2];
        [0; 0; 0; 1]].
Proof. evalq. entries; ring. Qed.

(** X4: on an array of fewer than three points genPlaneData raises
    IndexError. *)
Theorem genPlaneData_needs_three_points (w : nat) (points : table) :
  rectangular w points = true -> (length points < 3)%nat ->
  genPlaneData points = Raise IndexError.
Proof.
  intros R L.
  destruct points as [| p0 [| p1 [| p2 rest]]]; [reflexivity | reflexivity | | cbn in L; lia].
  cbn in R. apply andb_prop in R. destruct R as [R0 R]. apply andb_prop in R. destruct R as [R1 _].
  apply Nat.eqb_eq in R0, R1.
  unfold genPlaneData. cbn [item nth_error bind Monad_result].
  unfold np.sub, np.elementwise. rewrite R0, R1, Nat.eqb_refl. reflexivity.
Qed.

Lemma genPlaneData_needs_three_points_witness :
  genPlaneData [[0; 0; 0]; [1; 0; 0]] = Raise IndexError.
Proof.
  apply (genPlaneData_needs_three_points 3 [[0; 0; 0]; [1; 0; 0]]).
  - reflexivity.
  - cbn. lia.
Defined.

(** X7: when constructFromArray returns with the mesh retained, xys has one
    row per point, in the order of the points, and row i is the pair of
    the first two entries of affMat applied to the homogeneous point i. *)
Theorem constructFromArray_projects_points
        (varsArray pointsArray facesArray : table)
        (viewAnchor xViewBasis yViewBasis : vector) (s : TriSurface) :
  self.storeMesh s = true ->
  let o := constructFromArray varsArray pointsArray facesArray
                              viewAnchor xViewBasis yViewBasis s in
  value o = Ok tt ->
  exists T X,
    self.points (self_after o) = Some pointsArray
    /\ self.affMat (self_after o) = Some T
    /\ self.xys (self_after o) = Some X
    /\ length X = length pointsArray
    /\ forall i p, nth_error pointsArray i = Some p ->
         exists r, project T p = Ok r /\ nth_error X i = Some r.
Proof.
  intros Hm o. subst o. rewrite constructFromArray_unfold.
  cbv zeta. cbn [self_after value]. intros Hv.
  pose proof Hv as Hv'.
  apply establish_projects in Hv; [| exact Hm].
  destruct Hv as (pts & T & X & Ep & Et & Ex & LX & Hi).
  eapply establish_returns in Hv'; [| reflexivity].
  destruct Hv' as (row & pts' & pl & T' & invT & vb & s' & -> & _ & Hl & _ & _
                   & _ & _ & _ & _ & _ & _ & _ & M & _).
  injection Hl as <-.
  destruct (M Hm) as (fcs & _ & Ep' & _).
  rewrite Ep' in Ep. injection Ep as <-.
  exists T, X. repeat split; assumption.
Qed.

Lemma constructFromArray_projects_points_witness :
  let o := constructFromArray [[num 7]; [num 8]; [num 9]] triangle
                              [[0; 1; num 2]] e1 e1 e2 (init true) in
  exists T X,
    self.points (self_after o) = Some triangle
    /\ self.affMat (self_after o) = Some T
    /\ self.xys (self_after o) = Some X
    /\ length X = length triangle
    /\ forall i p, nth_error triangle i = Some p ->
         exists r, project T p = Ok r /\ nth_error X i = Some r.
Proof.
  apply (constructFromArray_projects_points
           [[num 7]; [num 8]; [num 9]] triangle [[0; 1; num 2]]
           e1 e1 e2 (init true)).
  - reflexivity.
  - vm_compute. reflexivity.
Defined.

(** X8: with the mesh retained, a constructFromArray call that returns
    leaves an object that does not depend on the members the object had
    before: from any two objects the call gives the same object, output
    and outcome. *)
Theorem constructFromArray_overwrites
        (varsArray pointsArray facesArray : table)
        (viewAnchor xViewBasis yViewBasis : vector) (s1 s2 : TriSurface) :
  self.storeMesh s1 = true -> self.storeMesh s2 = true ->
  value (constructFromArray varsArray pointsArray facesArray
                            viewAnchor xViewBasis yViewBasis s1) = Ok tt ->
  constructFromArray varsArray pointsArray facesArray
                     viewAnchor xViewBasis yViewBasis s2
  = constructFromArray varsArray pointsArray facesArray
                       viewAnchor xViewBasis yViewBasis s1.
Proof.
  intros H1 H2. rewrite !constructFromArray_unfold. cbv zeta.
  cbn [value]. unfold after_sources. run. rewrite H1, H2. run.
  destruct (item varsArray 1); run; [| discriminate].
  destruct (genPlaneData pointsArray); run; [| discriminate].
  destruct (genTransData pointsArray viewAnchor xViewBasis yViewBasis)
    as [[[T invT] vb] |]; run; [| discriminate].
  reflexivity.
Qed.

Lemma constructFromArray_overwrites_witness :
  constructFromArray [[num 7]; [num 8]; [num 9]] triangle [[0; 1; num 2]]
                     origin e1 e2 (self.set_varRank 5 (init true))
  = constructFromArray [[num 7]; [num 8]; [num 9]] triangle [[0; 1; num 2]]
                       origin e1 e2 (init true).
Proof.
  apply (constructFromArray_overwrites
           [[num 7]; [num 8]; [num 9]] triangle [[0; 1; num 2]]
           origin e1 e2 (init true) (self.set_varRank 5 (init true))).
  - reflexivity.
  - reflexivity.
  - vm_compute. reflexivity.
Defined.

(** X9: what readFromFoamFile does when a file is missing.  Without the
    vars file it raises IOError with only the three paths stored; without
    the points file it raises IOError with vars and varRank stored and
    points, plDef, affMat as before; without the faces file, the mesh being
    retained, it raises IOError with points stored and faces, plDef as
    before. *)
Theorem readFromFoamFile_missing_file
        (fs : filesystem) (varsFile pointsFile facesFile : string)
        (viewAnchor xViewBasis yViewBasis : vector) (s : TriSurface) :
  let o := readFromFoamFile fs varsFile pointsFile facesFile
                            viewAnchor xViewBasis yViewBasis s in
  (fs varsFile = None ->
   o = mkOutcome (after_sources varsFile pointsFile facesFile s) [] (Raise IOError))
  /\ (forall vars row,
        parseFoamFile fs varsFile = Ok vars -> item vars 1 = Ok row ->
        fs pointsFile = None ->
        value o = Raise IOError
        /\ self.vars (self_after o) = Some vars
        /\ self.varRank (self_after o) = length row
        /\ self.points (self_after o) = self.points s
        /\ self.plDef (self_after o) = self.plDef s
        /\ self.affMat (self_after o) = self.affMat s)
  /\ (forall vars row pts,
        parseFoamFile fs varsFile = Ok vars -> item vars 1 = Ok row ->
        parseFoamFile fs pointsFile = Ok pts ->
        self.storeMesh s = true -> fs facesFile = None ->
        value o = Raise IOError
        /\ self.points (self_after o) = Some pts
        /\ self.faces (self_after o) = self.faces s
        /\ self.plDef (self_after o) = self.plDef s).
Proof.
  intros o. subst o. rewrite readFromFoamFile_unfold. cbv zeta.
  split; [| split].
  - intros H. unfold parseFoamFile. rewrite H. reflexivity.
  - intros vars row Hv Hr Hp. rewrite Hv.
    assert (E : parseFoamFile fs pointsFile = Raise IOError)
      by (unfold parseFoamFile; rewrite Hp; reflexivity).
    rewrite E. unfold after_sources. run. rewrite Hr. run.
    destruct (self.storeMesh s); run; repeat split.
  - intros vars row pts Hv Hr Hp Hm Hf. rewrite Hv, Hp.
    assert (E : parseFoamFile fs facesFile = Raise IOError)
      by (unfold parseFoamFile; rewrite Hf; reflexivity).
    rewrite E. unfold after_sources. run. rewrite Hr. run. rewrite Hm. run.
    repeat split.
Qed.

Lemma readFromFoamFile_missing_file_witness :
  readFromFoamFile no_files "vars" "points" "faces" origin e1 e2 (init true)
  = mkOutcome (after_sources "vars" "points" "faces" (init true)) []
              (Raise IOError).
Proof.
  apply (readFromFoamFile_missing_file
           no_files "vars" "points" "faces" origin e1 e2 (init true)).
  reflexivity.
Defined.

Lemma establish_keeps_flag_and_prints_nothing
      (load_points load_faces : result table)
      (viewAnchor xViewBasis yViewBasis : vector) (s : TriSurface) :
  let o := establish load_points load_faces viewAnchor xViewBasis yViewBasis s in
  printed o = []
  /\ self.storeMesh (self_after o) = self.storeMesh s
  /\ self.varsFile (self_after o) = self.varsFile s
  /\ self.pointsFile (self_after o) = self.pointsFile s
  /\ self.facesFile (self_after o) = self.facesFile s.
Proof.
  cbv zeta. run.
  repeat (case_call; run);
    lazymatch goal with
    | |- context [for_in ?l project_point ?s1] =>
        destruct (for_in_project_point_frame l s1) as [[F _] P];
        destruct (for_in l project_point s1) as [s2 p2 r2];
        cbn [self_after printed] in *; subst p2;
        repeat split;
        [ exact (f_equal self.storeMesh F) | exact (f_equal self.varsFile F)
        | exact (f_equal self.pointsFile F) | exact (f_equal self.facesFile F) ]
    | |- _ => repeat split; congruence
    end.
Qed.

(** X10: whether it returns or raises, constructFromArray prints the
    dimension message exactly when the two lengths differ and nothing else,
    keeps storeMesh, and leaves the three source paths empty. *)
Theorem constructFromArray_prints_and_keeps
        (varsArray pointsArray facesArray : table)
        (viewAnchor xViewBasis yViewBasis : vector) (s : TriSurface) :
  let o := constructFromArray varsArray pointsArray facesArray
                              viewAnchor xViewBasis yViewBasis s in
  printed o = (if Nat.eqb (length varsArray) (length pointsArray)
               then [] else [dimension_message])
  /\ self.storeMesh (self_after o) = self.storeMesh s
  /\ self.varsFile (self_after o) = EmptyString
  /\ self.pointsFile (self_after o) = EmptyString
  /\ self.facesFile (self_after o) = EmptyString.
Proof.
  cbv zeta. rewrite constructFromArray_unfold. cbv zeta.
  cbn [self_after printed].
  match goal with
  | |- context [establish ?lp ?lf ?a ?x ?y ?s0] =>
      destruct (establish_keeps_flag_and_prints_nothing lp lf a x y s0)
        as (P & M & V & Q & F)
  end.
  rewrite P, M, V, Q, F, app_nil_r. unfold guard_output.
  destruct (Nat.eqb (length varsArray) (length pointsArray)); repeat split.
Qed.

Lemma project_point_sources (i : nat) (a b c : string) (s : TriSurface) :
  project_point i (after_sources a b c s)
  = map_outcome (after_sources a b c) (project_point i s).
Proof.
  unfold project_point, map_outcome, after_sources. run.
  repeat (case_call; run);
    first [ reflexivity
          | destruct s; cbn [self.points self.xys self.affMat] in *; subst;
            reflexivity ].
Qed.

Lemma for_in_project_point_sources (l : list nat) (a b c : string) (s : TriSurface) :
  for_in l project_point (after_sources a b c s)
  = map_outcome (after_sources a b c) (for_in l project_point s).
Proof.
  revert s. induction l as [| i l IH]; intros s; [reflexivity |].
  cbn [for_in]. cbv [bind Monad_method].
  rewrite project_point_sources. unfold map_outcome at 1.
  destruct (project_point i s) as [s1 p1 [[] | e]]; cbn [self_after printed value];
    [| reflexivity].
  rewrite IH. unfold map_outcome.
  destruct (for_in l project_point s1) as [s2 p2 r2]. reflexivity.
Qed.

Lemma establish_sources (load_points load_faces : result table)
      (viewAnchor xViewBasis yViewBasis : vector) (a b c : string) (s : TriSurface) :
  establish load_points load_faces viewAnchor xViewBasis yViewBasis
            (after_sources a b c s)
  = map_outcome (after_sources a b c)
      (establish load_points load_faces viewAnchor xViewBasis yViewBasis s).
Proof.
  unfold map_outcome, after_sources. run.
  repeat (case_call; run);
    repeat match goal with
           | H : _ = _ |- _ => progress rewrite H
           end;
    lazymatch goal with
    | |- ?L = ?R =>
        lazymatch L with
        | context [for_in ?l project_point ?sL] =>
            lazymatch R with
            | context [for_in l project_point ?sR] =>
                pose proof (for_in_project_point_sources l a b c sR) as E;
                change (after_sources a b c sR) with sL in E; rewrite E;
                unfold map_outcome, after_sources;
                destruct (for_in l project_point sR) as [s2 p2 r2]; reflexivity
            end
        | _ => reflexivity
        end
    end.
Qed.

(** X11: when the three files parse, readFromFoamFile has the outcome of
    constructFromArray on the parsed tables (columns 1 to 3 of the faces
    table), and leaves the same object except for the three source paths,
    which hold the paths given. *)
Theorem readFromFoamFile_as_constructFromArray
        (fs : filesystem) (varsFile pointsFile facesFile : string)
        (varsArray pointsArray facesTable facesArray : table)
        (viewAnchor xViewBasis yViewBasis : vector) (s : TriSurface) :
  parseFoamFile fs varsFile = Ok varsArray ->
  parseFoamFile fs pointsFile = Ok pointsArray ->
  parseFoamFile fs facesFile = Ok facesTable ->
  face_columns facesTable = Ok facesArray ->
  let oF := readFromFoamFile fs varsFile pointsFile facesFile
                             viewAnchor xViewBasis yViewBasis s in
  let oA := constructFromArray varsArray pointsArray facesArray
                               viewAnchor xViewBasis yViewBasis s in
  value oF = value oA
  /\ after_sources EmptyString EmptyString EmptyString (self_after oF)
     = self_after oA
  /\ self.varsFile (self_after oF) = varsFile
  /\ self.pointsFile (self_after oF) = pointsFile
  /\ self.facesFile (self_after oF) = facesFile.
Proof.
  intros Hv Hp Hf Hc oF oA. subst oF oA.
  rewrite constructFromArray_unfold, readFromFoamFile_unfold, Hv, Hp, Hf.
  cbv zeta. cbn [bind Monad_result]. rewrite Hc. cbn [self_after value].
  change (self.set_vars (Some varsArray) (after_sources varsFile pointsFile facesFile s))
    with (after_sources varsFile pointsFile facesFile (self.set_vars (Some varsArray) s)).
  change (self.set_vars (Some varsArray) (after_sources "" "" "" s))
    with (after_sources "" "" "" (self.set_vars (Some varsArray) s)).
  rewrite !establish_sources. unfold map_outcome.
  destruct (establish _ _ _ _ _ _) as [s' p' r'].
  cbn [self_after value]. repeat split.
Qed.

Lemma sample_faces_table :
  parseFoamFile sample_files "faces" = Ok [[num 3; 0; 1; num 2]].
Proof. qc_closed. Qed.

Lemma readFromFoamFile_as_constructFromArray_witness :
  let oF := readFromFoamFile sample_files "vars" "points" "faces"
                             origin e1 e2 (init true) in
  let oA := constructFromArray [[num 7]; [num 8]; [num 9]] triangle
                               [[0; 1; num 2]] origin e1 e2 (init true) in
  value oF = value oA
  /\ after_sources EmptyString EmptyString EmptyString (self_after oF)
     = self_after oA
  /\ self.varsFile (self_after oF) = "vars"%string
  /\ self.pointsFile (self_after oF) = "points"%string
  /\ self.facesFile (self_after oF) = "faces"%string.
Proof.
  apply (readFromFoamFile_as_constructFromArray
           sample_files "vars" "points" "faces"
           [[num 7]; [num 8]; [num 9]] triangle [[num 3; 0; 1; num 2]]
           [[0; 1; num 2]] origin e1 e2 (init true)
           sample_vars sample_points sample_faces_table).
  reflexivity.
Defined.

Lemma establish_without_mesh_ignores_faces (load_points load_faces load_faces' : result table)
      (viewAnchor xViewBasis yViewBasis : vector) (s : TriSurface) :
  self.storeMesh s = false ->
  establish load_points load_faces viewAnchor xViewBasis yViewBasis s
  = establish load_points load_faces' viewAnchor xViewBasis yViewBasis s.
Proof.
  intros Hm. run. rewrite Hm. reflexivity.
Qed.

Lemma parseFoamFile_depends_on_file (fs fs' : filesystem) (path : string) :
  fs path = fs' path -> parseFoamFile fs path = parseFoamFile fs' path.
Proof. intros H. unfold parseFoamFile. rewrite H. reflexivity. Qed.

(** X12: with storeMesh False the faces are never read: readFromFoamFile
    does the same on two file systems that agree on the vars and points
    files (the faces file may be absent), and constructFromArray does the
    same for any two faces arrays. *)
Theorem construction_without_mesh_ignores_faces
        (fs fs' : filesystem) (varsFile pointsFile facesFile : string)
        (varsArray pointsArray facesArray facesArray' : table)
        (viewAnchor xViewBasis yViewBasis : vector) (s : TriSurface) :
  self.storeMesh s = false ->
  fs varsFile = fs' varsFile -> fs pointsFile = fs' pointsFile ->
  readFromFoamFile fs varsFile pointsFile facesFile
                   viewAnchor xViewBasis yViewBasis s
  = readFromFoamFile fs' varsFile pointsFile facesFile
                     viewAnchor xViewBasis yViewBasis s
  /\ constructFromArray varsArray pointsArray facesArray
                        viewAnchor xViewBasis yViewBasis s
     = constructFromArray varsArray pointsArray facesArray'
                          viewAnchor xViewBasis yViewBasis s.
Proof.
  intros Hm Hv Hp. split.
  - rewrite !readFromFoamFile_unfold. cbv zeta.
    rewrite (parseFoamFile_depends_on_file fs fs' varsFile Hv).
    rewrite (parseFoamFile_depends_on_file fs fs' pointsFile Hp).
    destruct (parseFoamFile fs' varsFile); [| reflexivity].
    apply establish_without_mesh_ignores_faces. exact Hm.
  - rewrite !constructFromArray_unfold. cbv zeta.
    rewrite (establish_without_mesh_ignores_faces
               _ (Ok facesArray) (Ok facesArray')) by exact Hm.
    reflexivity.
Qed.

Lemma construction_without_mesh_ignores_faces_witness :
  readFromFoamFile sample_files "vars" "points" "faces" origin e1 e2 (init false)
  = readFromFoamFile sample_files_without_faces "vars" "points" "faces"
                     origin e1 e2 (init false)
  /\ constructFromArray [[num 7]; [num 8]] triangle [[0; 1; num 2]]
                        origin e1 e2 (init false)
     = constructFromArray [[num 7]; [num 8]] triangle []
                          origin e1 e2 (init false).
Proof.
  apply (construction_without_mesh_ignores_faces
           sample_files sample_files_without_faces "vars" "points" "faces"
           [[num 7]; [num 8]] triangle [[0; 1; num 2]] []
           origin e1 e2 (init false));
    reflexivity.
Defined.

Lemma digit_plus_none (p : list re.atom) (s : list ascii) :
  no_digit s = true -> re.match_here ((re.is_digit, re.Plus) :: p) s = None.
Proof.
  destruct s as [| x s]; [reflexivity |].
  cbn. intros H. apply andb_prop in H. destruct H as [H _].
  destruct (re.is_digit x); [discriminate H | reflexivity].
Qed.

Lemma no_digit_tail (x : ascii) (s : list ascii) :
  no_digit (x :: s) = true -> re.is_digit x = false /\ no_digit s = true.
Proof.
  cbn. intros H. apply andb_prop in H. destruct H as [H1 H2].
  split; [| exact H2]. destruct (re.is_digit x); [discriminate H1 | reflexivity].
Qed.

Lemma opt_none (c : ascii -> bool) (p : list re.atom) (s : list ascii) :
  (forall t, no_digit t = true -> re.match_here p t = None) ->
  no_digit s = true -> re.match_here ((c, re.Opt) :: p) s = None.
Proof.
  intros K H. cbn [re.match_here]. destruct s as [| x s].
  - apply K. reflexivity.
  - destruct (no_digit_tail _ _ H) as [_ Hs].
    rewrite (K s Hs), (K (x :: s) H). destruct (c x); reflexivity.
Qed.

Lemma digit_star_none (p : list re.atom) (s : list ascii) :
  (forall t, no_digit t = true -> re.match_here p t = None) ->
  no_digit s = true -> re.match_here ((re.is_digit, re.Star) :: p) s = None.
Proof.
  intros K H. cbn [re.match_here]. destruct s as [| x s].
  - cbn [re.star]. apply K. reflexivity.
  - destruct (no_digit_tail _ _ H) as [Hx _].
    cbn [re.star]. rewrite Hx. apply K. exact H.
Qed.

Lemma number_re_needs_digit (s : list ascii) :
  no_digit s = true -> re.match_here number_re s = None.
Proof.
  unfold number_re. intros H.
  apply opt_none; [| exact H]. clear s H. intros s H.
  apply digit_star_none; [| exact H]. clear s H. intros s H.
  apply opt_none; [| exact H]. clear s H. intros s H.
  apply digit_plus_none. exact H.
Qed.

(** A line without a decimal digit holds no token of the number pattern. *)
Lemma findall_without_digit (line : string) :
  no_digit (list_ascii_of_string line) = true ->
  re.findall number_re line = [].
Proof.
  unfold re.findall. generalize (list_ascii_of_string line). intros s H.
  assert (E : re.findall_from number_re 0 s = []).
  { induction s as [| x s IH]; [reflexivity |].
    cbn [re.findall_from]. rewrite (number_re_needs_digit _ H).
    apply IH. apply (no_digit_tail _ _ H). }
  rewrite E. reflexivity.
Qed.

(** X13: parseFoamFile passes over a line of ASCII text without a decimal
    digit (a bracket, a blank line, a comment without a number): the line
    holds no token, and the body of the loop leaves the rows read so far
    and the count flag as they are, before and after the count line. *)
Theorem parse_line_without_digit (st : list (list Qc) * bool) (line : string) :
  is_ascii line = true ->
  no_digit (list_ascii_of_string line) = true ->
  re.findall number_re line = [] /\ parse_line st line = Ok st.
Proof.
  intros _ H. pose proof (findall_without_digit line H) as E.
  split; [exact E |].
  destruct st as [output catchFirstNb]. unfold parse_line. rewrite E.
  destruct catchFirstNb; reflexivity.
Qed.

Lemma parse_line_without_digit_witness :
  re.findall number_re ("// a comment (no number)" ++ nl) = []
  /\ parse_line ([[num 1; num 2]], true) ("// a comment (no number)" ++ nl)
     = Ok ([[num 1; num 2]], true).
Proof.
  apply (parse_line_without_digit
           ([[num 1; num 2]], true) ("// a comment (no number)" ++ nl));
    reflexivity.
Defined.

Lemma parse_lines_no_count (ls : list string) :
  (forall line, In line ls -> length (re.findall number_re line) <> 1%nat) ->
  parse_lines ([], false) ls = Ok ([], false).
Proof.
  induction ls as [| line ls IH]; intros H; [reflexivity |].
  cbn [parse_lines]. unfold parse_line.
  destruct (Nat.eqb_spec (length (re.findall number_re line)) 1) as [E | E].
  - exfalso. apply (H line); [left; reflexivity | exact E].
  - cbn [negb andb bind Monad_result]. apply IH. intros l Hl. apply H. right. exact Hl.
Qed.

(** X14: a file of ASCII text in which no line holds exactly one number
    parses to the empty table, whatever rows it holds: without a count
    line nothing is read and nothing is raised. *)
Theorem parseFoamFile_without_count_line (fs : filesystem) (foamFile text : string) :
  fs foamFile = Some text ->
  is_ascii text = true ->
  (forall line, In line (lines text) ->
                length (re.findall number_re line) <> 1%nat) ->
  parseFoamFile fs foamFile = Ok [].
Proof.
  intros Hf _ H. unfold parseFoamFile. rewrite Hf.
  rewrite (parse_lines_no_count _ H). reflexivity.
Qed.

Lemma parseFoamFile_without_count_line_witness :
  parseFoamFile (single_file "pts" rows_only_text) "pts" = Ok [].
Proof.
  apply (parseFoamFile_without_count_line
           (single_file "pts" rows_only_text) "pts" rows_only_text).
  - reflexivity.
  - reflexivity.
  - intros line H. vm_compute in H.
    destruct H as [<- | [<- | []]]; vm_compute; discriminate.
Defined.

Lemma parse_lines_data (ls : list string) (output : list (list Qc)) :
  parse_lines (output, true) ls
  = (rows <- data_rows ls ;; ret (output ++ rows, true)%list).
Proof.
  revert output. induction ls as [| line ls IH]; intros output.
  - cbn. rewrite app_nil_r. reflexivity.
  - cbn [parse_lines data_rows]. unfold parse_line.
    destruct (re.findall number_re line) as [| t ts] eqn:E.
    + cbn [negb andb length Nat.ltb Nat.leb bind Monad_result]. apply IH.
    + cbn [negb andb length Nat.ltb Nat.leb].
      destruct (floats (t :: ts)) as [row | e]; cbn [bind Monad_result ret];
        [| reflexivity].
      rewrite IH. destruct (data_rows ls) as [rows | e]; cbn [bind Monad_result ret];
        [| reflexivity].
      rewrite <- app_assoc. reflexivity.
Qed.

Lemma parse_lines_header (pre : list string) (ls : list string) :
  (forall line, In line pre -> length (re.findall number_re line) <> 1%nat) ->
  parse_lines ([], false) (pre ++ ls) = parse_lines ([], false) ls.
Proof.
  induction pre as [| line pre IH]; intros H; [reflexivity |].
  cbn [app parse_lines]. unfold parse_line at 1.
  destruct (Nat.eqb_spec (length (re.findall number_re line)) 1) as [E | E].
  - exfalso. apply (H line); [left; reflexivity | exact E].
  - cbn [negb andb bind Monad_result]. apply IH. intros l Hl. apply H. right. exact Hl.
Qed.

(** After the count line: the lines before the first line with exactly
    one number are passed over, the number on that line is not used, and
    the table is made of one row per later line that holds a token. *)
Lemma parseFoamFile_rows_after_count
      (fs : filesystem) (foamFile text : string)
      (header : list string) (count : string) (body : list string) :
  fs foamFile = Some text ->
  lines text = (header ++ count :: body)%list ->
  (forall line, In line header ->
                length (re.findall number_re line) <> 1%nat) ->
  length (re.findall number_re count) = 1%nat ->
  parseFoamFile fs foamFile = (rows <- data_rows body ;; np_array rows).
Proof.
  intros Hf Hl Hh Hc. unfold parseFoamFile. rewrite Hf, Hl.
  rewrite (parse_lines_header _ _ Hh).
  cbn [parse_lines]. unfold parse_line at 1. rewrite Hc.
  cbn [negb andb Nat.eqb bind Monad_result].
  rewrite parse_lines_data.
  destruct (data_rows body) as [rows | e]; reflexivity.
Qed.

Lemma floats_length (toks : list string) (row : list Qc) :
  floats toks = Ok row -> length row = length toks.
Proof.
  revert row. induction toks as [| nb toks IH]; intros row; cbn [floats].
  - intros H. injection H as <-. reflexivity.
  - destruct (float nb) as [x | e]; cbn [bind Monad_result]; [| discriminate].
    destruct (floats toks) as [t | e]; cbn [bind ret Monad_result]; [| discriminate].
    intros H. injection H as <-. cbn [length]. rewrite (IH t eq_refl). reflexivity.
Qed.

Lemma data_rows_lengths (ls : list string) (rows : list (list Qc)) :
  data_rows ls = Ok rows -> map (@length Qc) rows = token_counts ls.
Proof.
  unfold token_counts.
  revert rows. induction ls as [| line ls IH]; intros rows; cbn [data_rows map filter].
  - intros H. injection H as <-. reflexivity.
  - destruct (re.findall number_re line) as [| t ts] eqn:E.
    + cbn [length Nat.ltb Nat.leb]. apply IH.
    + destruct (floats (t :: ts)) as [row | e] eqn:F; cbn [bind Monad_result];
        [| discriminate].
      destruct (data_rows ls) as [rows' | e]; cbn [bind ret Monad_result];
        [| discriminate].
      intros H. injection H as <-.
      cbn [length Nat.ltb Nat.leb map]. rewrite (IH rows' eq_refl).
      rewrite (floats_length _ _ F). reflexivity.
Qed.

Lemma np_array_returns (output : list (list Qc)) (t : table) :
  np_array output = Ok t -> t = output.
Proof.
  unfold np_array. destruct output as [| r output].
  - intros H. injection H as <-. reflexivity.
  - destruct (rectangular _ _); [| discriminate].
    intros H. injection H as <-. reflexivity.
Qed.

(** X15: on ASCII text the outcome of parseFoamFile depends on the lines
    after the first line with exactly one number only: the lines before it
    are passed over and the number on it is not used, so that two files
    with the same lines after their count lines parse to the same table or
    raise the same error, whatever their headers and counts; and a table
    that is returned has one row per later line that holds a token, in the
    order of the lines, with as many entries as the line has tokens. *)
Theorem parseFoamFile_ignores_header_and_count
        (fs fs' : filesystem) (foamFile foamFile' text text' : string)
        (header header' : list string) (count count' : string)
        (body : list string) :
  fs foamFile = Some text -> fs' foamFile' = Some text' ->
  is_ascii text = true -> is_ascii text' = true ->
  lines text = (header ++ count :: body)%list ->
  lines text' = (header' ++ count' :: body)%list ->
  (forall line, In line header ->
                length (re.findall number_re line) <> 1%nat) ->
  (forall line, In line header' ->
                length (re.findall number_re line) <> 1%nat) ->
  length (re.findall number_re count) = 1%nat ->
  length (re.findall number_re count') = 1%nat ->
  parseFoamFile fs foamFile = parseFoamFile fs' foamFile'
  /\ forall t, parseFoamFile fs foamFile = Ok t ->
               map (@length Qc) t = token_counts body.
Proof.
  intros Hf Hf' _ _ Hl Hl' Hh Hh' Hc Hc'.
  rewrite (parseFoamFile_rows_after_count fs foamFile text header count body)
    by assumption.
  rewrite (parseFoamFile_rows_after_count fs' foamFile' text' header' count' body)
    by assumption.
  split; [reflexivity |].
  intros t. destruct (data_rows body) as [rows | e] eqn:D; cbn [bind Monad_result];
    [| discriminate].
  intros H. apply np_array_returns in H. subst t.
  apply data_rows_lengths. exact D.
Qed.

(** A file with a header line and the count 3, and a file with the count 2
    whose lines end with carriage returns: the same two rows. *)
Lemma parseFoamFile_ignores_header_and_count_witness :
  parseFoamFile (single_file "a" header_text) "a"
  = parseFoamFile (single_file "b" cr_text) "b"
  /\ forall t, parseFoamFile (single_file "a" header_text) "a" = Ok t ->
               map (@length Qc) t = [3; 3]%nat.
Proof.
  apply (parseFoamFile_ignores_header_and_count
           (single_file "a" header_text) (single_file "b" cr_text)
           "a" "b" header_text cr_text
           [("FoamFile 1.0 2.0" ++ nl)%string] []
           ("3" ++ nl)%string ("2" ++ nl)%string
           [("1 2 3" ++ nl)%string; ("4 5 6" ++ nl)%string]);
    try reflexivity.
  - intros line [<- | []]. vm_compute. discriminate.
  - intros line [].
Defined.

(** Lines that end with a carriage return are lines. *)
Lemma parseFoamFile_carriage_returns :
  lines cr_text = [("2" ++ nl)%string; ("1 2 3" ++ nl)%string; ("4 5 6" ++ nl)%string]
  /\ parseFoamFile (single_file "b" cr_text) "b"
     = Ok [[num 1; num 2; num 3]; [num 4; num 5; num 6]].
Proof. split; [reflexivity | qc_closed]. Qed.
